(** * translate2.py: session, authentication and transcript logic

    A shallow embedding of the Streamlit script [translate2.py].  One run of
    the script is a function of the widget values of that run, of the
    outside world (secrets, identity provider, generative model) and of
    [st.session_state]; it yields the new session state, what was drawn on
    the page, the calls made to the outside, and how the run ended. *)

From Stdlib Require Import ZArith String List Bool Lia.
From stdpp Require Import base option strings gmap.
Import ListNotations.

Local Open Scope string_scope.
Local Open Scope Z_scope.
Set Warnings "-register-all".


(** ** Python values that cross the script *)

(** What [response.json()] decodes to.  A Python [str] is the Rocq
    [string] of its UTF-8 encoding, one element per byte (as the string
    literals of this file are read); a number carries the text [str()]
    gives for it; [JNull] is Python's [None]. *)
Inductive json : Type :=
| JNull
| JBool (b : bool)
| JNum (text : string)
| JStr (s : string)
| JArr (items : list json)
| JObj (fields : list (string * json)).

(** Truth value of a Python object in [if x:] (a number is false when it
    is zero, which its text decides). *)
Definition num_is_zero (text : string) : bool :=
  forallb (fun c => existsb (Ascii.eqb c) (list_ascii_of_string "0.-+eE"))
          (list_ascii_of_string text).

Definition py_truthy (v : json) : bool :=
  match v with
  | JNull => false
  | JBool b => b
  | JNum t => negb (num_is_zero t)
  | JStr s => negb (String.eqb s EmptyString)
  | JArr l => match l with [] => false | _ => true end
  | JObj d => match d with [] => false | _ => true end
  end.

Definition str_truthy (s : string) : bool := negb (String.eqb s EmptyString).

(** A byte that continues a UTF-8 sequence (10xxxxxx): every code point
    has exactly one byte that is not of this kind, its first. *)
Definition is_continuation (c : Ascii.ascii) : bool :=
  Nat.leb 128 (Ascii.nat_of_ascii c) && Nat.ltb (Ascii.nat_of_ascii c) 192.

(** [len(s)] of a Python [str]: the number of its code points. *)
Fixpoint py_len (s : string) : nat :=
  match s with
  | EmptyString => 0%nat
  | String c rest => if is_continuation c then py_len rest else S (py_len rest)
  end.

(** [d.get(key, default)] on a dict. *)
Fixpoint dict_get (d : list (string * json)) (key : string) (default : json) : json :=
  match d with
  | [] => default
  | (k, v) :: rest => if String.eqb k key then v else dict_get rest key default
  end.

(** ** Exceptions and control signals *)

Inductive exn : Type :=
| UnboundLocalError (name : string)
| AttributeError (attr : string)
| JSONDecodeError
| FileNotFoundError.

(** How a run of the script ends early: [st.rerun()], [st.stop()], or an
    exception nobody caught. *)
Inductive signal : Type :=
| Rerun
| Stop
| Uncaught (e : exn).

Inductive outcome (A : Type) : Type :=
| Ok (a : A)
| Abort (s : signal).
Arguments Ok {A} a.
Arguments Abort {A} s.

(** ** Session state, page output, outside calls *)

(** A chat turn: the dict appended to [st.session_state.messages]. *)
Record Message : Type := mkMessage {
  role : string;
  content : string;
  source_lang : option string;
  target_lang : option string
}.

(** [st.session_state], restricted to the three keys the script owns; a
    field is [None] while its key is absent. *)
Record SessionState : Type := mkSession {
  logged_in : option bool;
  user_info : option json;
  messages : option (list Message)
}.

Inductive UiEvent : Type :=
| StError (msg : string)
| StInfo (msg : string)
| StWarning (msg : string)
| StSuccess (msg : string)
| StTitle (txt : string)
| StSubheader (txt : string)
| StMarkdown (txt : string)
| StCaption (txt : string)
| SidebarTitle (txt : string)
| SidebarSubheader (txt : string)
| SidebarMarkdown (txt : string)
| ChatMessage (who : string) (body : list string)
| Spinner (txt : string).

(** A request handed to [requests.post]. *)
Record Request : Type := mkRequest {
  url : string;
  headers : list (string * string);
  data : json
}.

Inductive Call : Type :=
| HttpPost (rq : Request)
| GenerateContent (prompt : string).

Record Response : Type := mkResponse {
  status_code : Z;
  (* str() of the HTTPError that raise_for_status builds for this response *)
  http_error_text : string;
  (* the decoded body, None when the body is not JSON *)
  body : option json;
  (* str() of the error json() raises when the body is not JSON *)
  decode_error_text : string
}.

(** [requests.post] either raises a RequestException (nothing came back)
    or returns a response. *)
Inductive PostResult : Type :=
| PostRaises (e_text : string)
| PostReturns (r : Response).

(** [generate_content(...)] followed by [.text]: a text, or an exception. *)
Inductive GenResult : Type :=
| GenText (t : string)
| GenRaises (e_text : string).

(** The outside world of one run. *)
Record Env : Type := mkEnv {
  (* the parsed secrets file, None when there is no such file *)
  secrets_toml : option (gmap string string);
  model_load_error : option string;
  requests_post : Request -> PostResult;
  generate_content : string -> GenResult;
  (* str() of a decoded JSON value that is not a string *)
  py_repr : json -> string
}.

(** [st.secrets] once the file is read; no entry when there is no file. *)
Definition secrets (env : Env) : gmap string string :=
  default ∅ (secrets_toml env).

Record World : Type := mkWorld {
  session : SessionState;
  ui : list UiEvent;
  calls : list Call
}.

(** ** The monad of a script run: state, log and early exit *)

Definition M (A : Type) : Type := World -> outcome A * World.

Definition ret {A} (a : A) : M A := fun w => (Ok a, w).

Definition bind {A B} (m : M A) (k : A -> M B) : M B :=
  fun w => match m w with
           | (Ok a, w') => k a w'
           | (Abort s, w') => (Abort s, w')
           end.

Definition raise {A} (e : exn) : M A := fun w => (Abort (Uncaught e), w).
Definition st_rerun {A} : M A := fun w => (Abort Rerun, w).
Definition st_stop {A} : M A := fun w => (Abort Stop, w).

Declare Scope run_scope.
Delimit Scope run_scope with run.
Notation "x <- m ;; k" := (bind m (fun x => k))
  (at level 100, m at level 99, right associativity) : run_scope.
Notation "m ;; k" := (bind m (fun _ => k))
  (at level 100, right associativity) : run_scope.
Local Open Scope run_scope.

Definition draw (e : UiEvent) : M unit :=
  fun w => (Ok tt, mkWorld (session w) (ui w ++ [e]) (calls w)).

Definition record_call (c : Call) : M unit :=
  fun w => (Ok tt, mkWorld (session w) (ui w) (calls w ++ [c])).

Definition get_session : M SessionState := fun w => (Ok (session w), w).

Definition put_session (s : SessionState) : M unit :=
  fun w => (Ok tt, mkWorld s (ui w) (calls w)).

Definition when (b : bool) (m : M unit) : M unit := if b then m else ret tt.

(** Text an f-string puts for a decoded JSON value. *)
Definition py_str (env : Env) (v : json) : string :=
  match v with
  | JStr s => s
  | _ => py_repr env v
  end.

(** ** Firebase authentication functions *)

Definition FIREBASE_AUTH_URL : string :=
  "https://identitytoolkit.googleapis.com/v1/accounts:".

Definition post (env : Env) (rq : Request) : M PostResult :=
  record_call (HttpPost rq) ;; ret (requests_post env rq).

(** [response.raise_for_status()]: the error text when it raises. *)
Definition raise_for_status (r : Response) : option string :=
  if (400 <=? status_code r) && (status_code r <? 600)
  then Some (http_error_text r) else None.

(** Reading a local variable that may not have been assigned yet. *)
Definition read_local {A} (name : string) (v : option A) : M A :=
  match v with
  | Some a => ret a
  | None => raise (UnboundLocalError name)
  end.

Definition response_json (r : Response) : M json :=
  match body r with
  | Some j => ret j
  | None => raise JSONDecodeError
  end.

(** [v.get(key, default)]: only a dict has [get]. *)
Definition py_get (v : json) (key : string) (default : json) : M json :=
  match v with
  | JObj d => ret (dict_get d key default)
  | _ => raise (AttributeError "get")
  end.

Definition credentials (email password : string) : json :=
  JObj [("email", JStr email); ("password", JStr password);
        ("returnSecureToken", JBool true)].

Definition json_headers : list (string * string) :=
  [("Content-Type", "application/json")].

(** The [except requests.exceptions.RequestException as e:] block of
    [signup_user] and [login_user]; [response] is the local variable of
    the [try] block, unassigned when [requests.post] itself raised. *)
Definition auth_except (env : Env) (what fallback e_text : string)
    (response : option Response) : M json :=
  draw (StError (what ++ " failed: " ++ e_text)) ;;
  r <- read_local "response" response ;;
  (if status_code r =? 400 then
     j <- response_json r ;;
     error_data <- py_get j "error" (JObj []) ;;
     message <- py_get error_data "message" (JStr fallback) ;;
     draw (StError ("Error: " ++ py_str env message))
   else ret tt) ;;
  ret JNull.

(** The common body of [signup_user] and [login_user]: the [try] block
    posts the credentials, calls [raise_for_status] and returns
    [response.json()]; each of the three can raise into the [except]
    block (the decode error of [json()] is a RequestException in
    requests 2.27 and later). *)
Definition auth_call (env : Env) (endpoint what fallback : string)
    (api_key email password : string) : M json :=
  let url := FIREBASE_AUTH_URL ++ endpoint ++ "?key=" ++ api_key in
  let headers := json_headers in
  let payload := credentials email password in
  pr <- post env (mkRequest url headers payload) ;;
  match pr with
  | PostRaises e => auth_except env what fallback e None
  | PostReturns response =>
      match raise_for_status response with
      | Some e => auth_except env what fallback e (Some response)
      | None =>
          match body response with
          | Some j => ret j
          | None => auth_except env what fallback
                      (decode_error_text response) (Some response)
          end
      end
  end.

Definition signup_user (env : Env) (api_key email password : string) : M json :=
  auth_call env "signUp" "Signup" "Unknown Firebase error" api_key email password.

Definition login_user (env : Env) (api_key email password : string) : M json :=
  auth_call env "signInWithPassword" "Login"
            "Invalid credentials or Firebase error" api_key email password.

Definition logout_user : M unit :=
  s <- get_session ;;
  put_session (mkSession (Some false) (user_info s) (messages s)) ;;
  s <- get_session ;;
  put_session (mkSession (logged_in s) (Some JNull) (messages s)) ;;
  s <- get_session ;;
  put_session (mkSession (logged_in s) (user_info s) (Some [])) ;;
  st_rerun.

(** ** Language options *)

Definition LANGUAGES : list (string * string) :=
  [("English", "English"); ("Hindi", "Hindi"); ("Spanish", "Spanish");
   ("French", "French"); ("German", "German"); ("Japanese", "Japanese");
   ("Chinese (Simplified)", "Chinese (Simplified)"); ("Telugu", "Telugu");
   ("Tamil", "Tamil"); ("Kannada", "Kannada"); ("Malayalam", "Malayalam");
   ("Bengali", "Bengali"); ("Gujarati", "Gujarati"); ("Punjabi", "Punjabi")].

Definition language_keys : list string := map fst LANGUAGES.

(** ** Widgets: what the page hands to one run of the script *)

Record Widgets : Type := mkWidgets {
  logout_button : bool;
  source_lang_select : string;
  target_lang_select : string;
  chat_input_text : option string;
  clear_button : bool;
  login_email : string;
  login_password : string;
  login_button : bool;
  register_email : string;
  register_password : string;
  confirm_password : string;
  register_button : bool
}.

(** ** Session-state accessors *)

Definition set_logged_in (b : bool) : M unit :=
  s <- get_session ;;
  put_session (mkSession (Some b) (user_info s) (messages s)).

Definition set_user_info (v : json) : M unit :=
  s <- get_session ;;
  put_session (mkSession (logged_in s) (Some v) (messages s)).

Definition set_messages (l : list Message) : M unit :=
  s <- get_session ;;
  put_session (mkSession (logged_in s) (user_info s) (Some l)).

(** Reading [st.session_state.<name>] while the key is absent raises. *)
Definition read_attr {A} (name : string) (v : option A) : M A :=
  match v with
  | Some a => ret a
  | None => raise (AttributeError name)
  end.

(** [st.session_state.messages.append(m)] *)
Definition append_message (m : Message) : M unit :=
  s <- get_session ;;
  l <- read_attr "messages" (messages s) ;;
  set_messages (l ++ [m]).

Definition assistant_turn (text : string) : Message :=
  mkMessage "assistant" text None None.

Definition user_turn (text source target : string) : Message :=
  mkMessage "user" text (Some source) (Some target).

Definition greeting : Message :=
  assistant_turn
    "Hello! I'm your AI translator. Select languages and type to translate.".

Definition cleared_greeting : Message :=
  assistant_turn "Chat cleared! How can I help you now?".

(** ** The translator view (the [if st.session_state.logged_in:] branch) *)

Definition from_to (source target : string) : string :=
  "**From " ++ source ++ " to " ++ target ++ "**".

Definition render_message (m : Message) : UiEvent :=
  match String.eqb (role m) "user", source_lang m, target_lang m with
  | true, Some s, Some t => ChatMessage (role m) [from_to s t; content m]
  | _, _, _ => ChatMessage (role m) [content m]
  end.

Fixpoint render_history (l : list Message) : M unit :=
  match l with
  | [] => ret tt
  | m :: rest => draw (render_message m) ;; render_history rest
  end.

(** The double-quote character of the prompt template. *)
Definition dquote : string := String (Ascii.ascii_of_nat 34) EmptyString.

Definition translation_prompt (source_language target_language prompt : string)
  : string :=
  "Translate the following " ++ source_language ++ " text to "
    ++ target_language ++ ": " ++ dquote ++ prompt ++ dquote.

(** The body of [if prompt := st.chat_input(...):]. *)
Definition on_chat_input (env : Env) (source_language target_language : string)
    (prompt : string) : M unit :=
  append_message (user_turn prompt source_language target_language) ;;
  draw (ChatMessage "user" [from_to source_language target_language; prompt]) ;;
  draw (Spinner ("Translating from " ++ source_language ++ " to "
                   ++ target_language ++ "...")) ;;
  let translation_prompt :=
    translation_prompt source_language target_language prompt in
  record_call (GenerateContent translation_prompt) ;;
  match generate_content env translation_prompt with
  | GenText translated_text =>
      append_message (assistant_turn translated_text) ;;
      draw (ChatMessage "assistant" [translated_text])
  | GenRaises e =>
      let error_message := "An error occurred during translation: " ++ e in
      draw (StError error_message) ;;
      draw (StInfo "Please try again or check your API key/network connection. Quota limits might also apply.") ;;
      append_message (assistant_turn ("Error: " ++ error_message))
  end.

(** The body of [if st.button("Clear Chat", ...):]. *)
Definition clear_chat : M unit :=
  set_messages [] ;;
  append_message cleared_greeting ;;
  st_rerun.

Definition init_messages : M unit :=
  s <- get_session ;;
  match messages s with
  | None => set_messages [] ;; append_message greeting
  | Some _ => ret tt
  end.

Definition translator_view (env : Env) (w : Widgets) : M unit :=
  s <- get_session ;;
  info <- read_attr "user_info" (user_info s) ;;
  email <- py_get info "email" (JStr "User") ;;
  draw (SidebarTitle ("Welcome, " ++ py_str env email ++ "!")) ;;
  when (logout_button w) logout_user ;;
  draw (StTitle "🗣️ AI Language Translator") ;;
  draw (StMarkdown "Powered by Google Gemini API") ;;
  init_messages ;;
  draw (SidebarSubheader "Language Settings") ;;
  let source_language := source_lang_select w in
  let target_language := target_lang_select w in
  draw (SidebarMarkdown "---") ;;
  s <- get_session ;;
  history <- read_attr "messages" (messages s) ;;
  render_history history ;;
  match chat_input_text w with
  | Some prompt =>
      when (str_truthy prompt)
           (on_chat_input env source_language target_language prompt)
  | None => ret tt
  end ;;
  draw (StMarkdown "---") ;;
  when (clear_button w) clear_chat ;;
  draw (StCaption "Disclaimer: Translations are generated by AI and may not always be perfectly accurate. This is a demo app.").

(** ** The login / registration view (the [else] branch) *)

Definition login_form (env : Env) (api_key : string) (w : Widgets) : M unit :=
  when (login_button w)
    (if str_truthy (login_email w) && str_truthy (login_password w) then
       user_data <- login_user env api_key (login_email w) (login_password w) ;;
       if py_truthy user_data then
         set_logged_in true ;;
         set_user_info user_data ;;
         draw (StSuccess "Logged in successfully!") ;;
         st_rerun
       else ret tt
     else draw (StWarning "Please enter both email and password.")).

Definition register_form (env : Env) (api_key : string) (w : Widgets) : M unit :=
  when (register_button w)
    (if str_truthy (register_email w) && str_truthy (register_password w)
        && str_truthy (confirm_password w) then
       if String.eqb (register_password w) (confirm_password w) then
         if 6 <=? Z.of_nat (py_len (register_password w)) then
           user_data <- signup_user env api_key (register_email w)
                                    (register_password w) ;;
           when (py_truthy user_data)
                (draw (StSuccess "Registration successful! You can now log in."))
         else draw (StError "Password must be at least 6 characters long.")
       else draw (StError "Passwords do not match.")
     else draw (StWarning "Please fill in all fields.")).

Definition auth_view (env : Env) (api_key : string) (w : Widgets) : M unit :=
  draw (StTitle "Welcome to the AI Language Translator!") ;;
  draw (StSubheader "Please Login or Register to continue.") ;;
  draw (StSubheader "Login") ;;
  login_form env api_key w ;;
  draw (StSubheader "Register") ;;
  register_form env api_key w.

(** ** The page: session initialisation and the choice of the view *)

Definition init_login_state : M unit :=
  s <- get_session ;;
  match logged_in s with None => set_logged_in false | Some _ => ret tt end ;;
  s <- get_session ;;
  match user_info s with None => set_user_info JNull | Some _ => ret tt end.

Definition app (env : Env) (api_key : string) (w : Widgets) : M unit :=
  init_login_state ;;
  s <- get_session ;;
  flag <- read_attr "logged_in" (logged_in s) ;;
  (if flag then translator_view env w else auth_view env api_key w) ;;
  draw (StMarkdown "---") ;;
  draw (StCaption "Developed with Streamlit, Google Gemini, and Firebase.").

(** ** Start-up configuration and the whole script *)

Definition MODEL_NAME : string := "gemini-1.5-flash-latest".

Definition secret_truthy (v : option string) : bool :=
  match v with Some s => str_truthy s | None => false end.

Definition script (env : Env) (w : Widgets) : M unit :=
  (* the first use of st.secrets reads the file and raises without one *)
  match secrets_toml env with
  | Some _ => ret tt
  | None => raise FileNotFoundError
  end ;;
  match secrets env !! "GOOGLE_API_KEY" with
  | Some _ => ret tt
  | None =>
      draw (StError "Google API Key not found in Streamlit secrets. Please add it to .streamlit/secrets.toml") ;;
      st_stop
  end ;;
  match model_load_error env with
  | None => ret tt
  | Some e =>
      draw (StError ("Failed to load model '" ++ MODEL_NAME ++ "': " ++ e)) ;;
      draw (StInfo "Please check the model name or your API key/network connection.") ;;
      st_stop
  end ;;
  let FIREBASE_API_KEY := secrets env !! "FIREBASE_API_KEY" in
  let FIREBASE_AUTH_DOMAIN := secrets env !! "FIREBASE_AUTH_DOMAIN" in
  let FIREBASE_PROJECT_ID := secrets env !! "FIREBASE_PROJECT_ID" in
  let FIREBASE_APP_ID := secrets env !! "FIREBASE_APP_ID" in
  when (negb (forallb secret_truthy
                [FIREBASE_API_KEY; FIREBASE_AUTH_DOMAIN;
                 FIREBASE_PROJECT_ID; FIREBASE_APP_ID]))
       (draw (StError "Missing Firebase configuration in .streamlit/secrets.toml. Please check your setup.") ;;
        st_stop) ;;
  app env (default EmptyString FIREBASE_API_KEY) w.

(** ** Runs and interactions *)

(** One run of the page on a fresh drawing surface. *)
Definition run_app (env : Env) (api_key : string) (w : Widgets)
    (s : SessionState) : outcome unit * World :=
  app env api_key w (mkWorld s [] []).

(** Widget values of the run that [st.rerun()] triggers: no button is
    pressed and no text is submitted; entered text and selections stay. *)
Definition idle (w : Widgets) : Widgets :=
  mkWidgets false (source_lang_select w) (target_lang_select w) None false
            (login_email w) (login_password w) false
            (register_email w) (register_password w) (confirm_password w) false.

(** A user action: the run it triggers and, when that run asks for a
    rerun, the run that follows on a cleared page. *)
Definition interact (env : Env) (api_key : string) (w : Widgets)
    (s : SessionState) : outcome unit * World :=
  match run_app env api_key w s with
  | (Abort Rerun, w1) =>
      app env api_key (idle w) (mkWorld (session w1) [] (calls w1))
  | r => r
  end.

(** ** Text submissions in the translator view *)

(** A text submission: the text typed in the chat input and the two
    languages selected at that moment. *)
Record Submission : Type := mkSubmission {
  sub_text : string;
  sub_source : string;
  sub_target : string
}.

(** The widget values of the run a submission triggers: the chat input
    carries the text, no button is pressed. *)
Definition submit (sub : Submission) : Widgets :=
  mkWidgets false (sub_source sub) (sub_target sub) (Some (sub_text sub)) false
            EmptyString EmptyString false
            EmptyString EmptyString EmptyString false.

(** The content of the assistant turn a submission ends with. *)
Definition reply (env : Env) (sub : Submission) : string :=
  match generate_content env
          (translation_prompt (sub_source sub) (sub_target sub) (sub_text sub))
  with
  | GenText t => t
  | GenRaises e => "Error: " ++ ("An error occurred during translation: " ++ e)
  end.

Definition turns (step : Env * Submission) : list Message :=
  [user_turn (sub_text (snd step)) (sub_source (snd step)) (sub_target (snd step));
   assistant_turn (reply (fst step) (snd step))].

(** Successive submissions, each with the outside world of its run. *)
Fixpoint submit_all (api_key : string) (steps : list (Env * Submission))
    (s : SessionState) : outcome unit * SessionState :=
  match steps with
  | [] => (Ok tt, s)
  | step :: rest =>
      match run_app (fst step) api_key (submit (snd step)) s with
      | (Ok _, w) => submit_all api_key rest (session w)
      | (Abort sg, w) => (Abort sg, session w)
      end
  end.

(** The session is in the Authenticated state: the flag is set and the
    account record is the dict the provider returned. *)
Definition authenticated (s : SessionState) : Prop :=
  logged_in s = Some true /\ exists d, user_info s = Some (JObj d).

(** [needle] occurs in [hay]. *)
Definition contains (hay needle : string) : Prop :=
  exists pre post, hay = pre ++ needle ++ post.

(** The session once [logout_user] has run. *)
Definition logged_out : SessionState :=
  mkSession (Some false) (Some JNull) (Some []).

(** The request [login_user] and [signup_user] send. *)
Definition auth_request (endpoint api_key email password : string) : Request :=
  mkRequest (FIREBASE_AUTH_URL ++ endpoint ++ "?key=" ++ api_key)
            json_headers (credentials email password).

(** The three messages of the local checks of the registration form. *)
Definition validation_messages : list UiEvent :=
  [StWarning "Please fill in all fields.";
   StError "Passwords do not match.";
   StError "Password must be at least 6 characters long."].

(** ** Sample worlds and sessions *)

Definition account : json :=
  JObj [("email", JStr "ada@example.org"); ("idToken", JStr "tok");
        ("localId", JStr "u1")].

Definition rejection : json :=
  JObj [("error", JObj [("code", JNum "400");
                        ("message", JStr "INVALID_LOGIN_CREDENTIALS")])].

Definition no_repr (v : json) : string := "<value>".

(** Provider and model both answer. *)
Definition world_up : Env :=
  mkEnv (Some ∅) None
        (fun _ => PostReturns (mkResponse 200 EmptyString (Some account) EmptyString))
        (fun _ => GenText "Hola") no_repr.

(** The provider rejects the credentials; the model is out of quota. *)
Definition world_rejecting : Env :=
  mkEnv (Some ∅) None
        (fun _ => PostReturns
                    (mkResponse 400 "400 Client Error: Bad Request for url"
                                (Some rejection) EmptyString))
        (fun _ => GenRaises "quota exceeded") no_repr.

(** No secrets file at all. *)
Definition world_unconfigured : Env :=
  mkEnv None None (fun _ => PostRaises "Connection refused")
        (fun _ => GenRaises "Connection refused") no_repr.

(** No connection to the provider. *)
Definition world_offline : Env :=
  mkEnv (Some ∅) None (fun _ => PostRaises "Connection refused")
        (fun _ => GenRaises "Connection refused") no_repr.

Definition fresh_session : SessionState := mkSession None None None.

Definition signed_in : SessionState :=
  mkSession (Some true) (Some account) (Some [greeting]).

Definition hello : Submission := mkSubmission "Hello" "English" "Spanish".

Definition no_action : Widgets :=
  mkWidgets false "English" "Hindi" None false
            EmptyString EmptyString false
            EmptyString EmptyString EmptyString false.

Definition press_login (email password : string) : Widgets :=
  mkWidgets false "English" "Hindi" None false
            email password true
            EmptyString EmptyString EmptyString false.

Definition press_register (email password confirm : string) : Widgets :=
  mkWidgets false "English" "Hindi" None false
            EmptyString EmptyString false
            email password confirm true.

Definition press_logout : Widgets :=
  mkWidgets true "English" "Hindi" None false
            EmptyString EmptyString false
            EmptyString EmptyString EmptyString false.

Definition press_clear : Widgets :=
  mkWidgets false "English" "Hindi" None true
            EmptyString EmptyString false
            EmptyString EmptyString EmptyString false.

(** ** Notions used to state what a run keeps and never does *)

(** A computation that never ends with the signal [sg]. *)
Definition never (sg : signal) {A : Type} (m : M A) : Prop :=
  forall w : World, fst (m w) <> Abort sg.

(** The login flag is never set without a truthy account record (the
    only place that sets it is the [if user_data:] branch of the login
    form). *)
Definition consistent (s : SessionState) : Prop :=
  logged_in s = Some true ->
  exists v, user_info s = Some v /\ py_truthy v = true.

(** Every user turn of the transcript is directly followed by an
    assistant turn; [pending] tells that the previous turn was a user
    turn still waiting for its answer. *)
Fixpoint answered (pending : bool) (l : list Message) : bool :=
  match l with
  | [] => negb pending
  | m :: rest =>
      if pending
      then String.eqb (role m) "assistant" && answered false rest
      else answered (String.eqb (role m) "user") rest
  end.

Definition transcript_answered (s : SessionState) : Prop :=
  match messages s with
  | Some l => answered false l = true
  | None => True
  end.

(** The same widget values with nothing typed in the chat input. *)
Definition without_chat (w : Widgets) : Widgets :=
  mkWidgets (logout_button w) (source_lang_select w) (target_lang_select w)
            None (clear_button w)
            (login_email w) (login_password w) (login_button w)
            (register_email w) (register_password w) (confirm_password w)
            (register_button w).

(** Successive runs of the page, each with its own outside world and
    widget values, whatever way each run ends. *)
Fixpoint run_all (api_key : string) (steps : list (Env * Widgets))
    (s : SessionState) : SessionState :=
  match steps with
  | [] => s
  | step :: rest =>
      run_all api_key rest
              (session (snd (run_app (fst step) api_key (snd step) s)))
  end.

(** A call to the identity provider, as opposed to one to the model. *)
Definition is_post (c : Call) : bool :=
  match c with HttpPost _ => true | GenerateContent _ => false end.

(** Secrets with every key the script reads. *)
Definition full_secrets : gmap string string :=
  <["GOOGLE_API_KEY" := "g-key"]>
    (<["FIREBASE_API_KEY" := "K"]>
       (<["FIREBASE_AUTH_DOMAIN" := "app.firebaseapp.com"]>
          (<["FIREBASE_PROJECT_ID" := "app"]>
             (<["FIREBASE_APP_ID" := "1:2:web:3"]> ∅)))).

Definition world_configured : Env :=
  mkEnv (Some full_secrets) None
        (fun _ => PostReturns (mkResponse 200 EmptyString (Some account) EmptyString))
        (fun _ => GenText "Hola") no_repr.

(** The model cannot be loaded. *)
Definition world_no_model : Env :=
  mkEnv (Some full_secrets) (Some "404 model not found")
        (fun _ => PostRaises "Connection refused")
        (fun _ => GenRaises "Connection refused") no_repr.

(** The Firebase app id is an empty string. *)
Definition world_empty_app_id : Env :=
  mkEnv (Some (<["FIREBASE_APP_ID" := EmptyString]> full_secrets)) None
        (fun _ => PostRaises "Connection refused")
        (fun _ => GenRaises "Connection refused") no_repr.

(** The provider answers with the given response, whatever the request. *)
Definition world_answering (r : Response) : Env :=
  mkEnv (Some ∅) None (fun _ => PostReturns r) (fun _ => GenText "Hola") no_repr.

(** Whether a decoded value is a dict, the only kind with [get]. *)
Definition is_dict (v : json) : bool :=
  match v with JObj _ => true | _ => false end.

(** A computation that keeps a property [J] of the session state and of
    the log of outside calls, however it ends. *)
Definition keeps (J : SessionState -> list Call -> Prop) {A : Type}
    (m : M A) : Prop :=
  forall w : World,
    J (session w) (calls w) -> J (session (snd (m w))) (calls (snd (m w))).

(** * Properties *)

Lemma render_history_run (l : list Message) (w : World) :
  render_history l w
  = (Ok tt, mkWorld (session w) (ui w ++ map render_message l) (calls w)).
Proof.
  revert w; induction l as [|m l IH]; intros [s u c]; simpl.
  - unfold ret. now rewrite app_nil_r.
  - unfold bind, draw; simpl. rewrite IH; simpl.
    now rewrite <- app_assoc.
Qed.

Lemma submit_run (env : Env) (api_key : string) (sub : Submission)
    (s : SessionState) (l : list Message) :
  authenticated s -> messages s = Some l -> sub_text sub <> EmptyString ->
  exists w, run_app env api_key (submit sub) s = (Ok tt, w)
    /\ session w = mkSession (logged_in s) (user_info s)
                             (Some (l ++ turns (env, sub))%list)
    /\ calls w = [GenerateContent (translation_prompt (sub_source sub)
                                     (sub_target sub) (sub_text sub))].
Proof.
  intros [Hli [d Hui]] Hm Ht. destruct s as [li ui0 ms]; simpl in *; subst.
  unfold run_app, app, translator_view, init_login_state, bind; simpl.
  rewrite render_history_run; simpl.
  unfold str_truthy. destruct (String.eqb_spec (sub_text sub) EmptyString) as [E|_];
    [contradiction|]; simpl.
  unfold on_chat_input, reply, turns, bind; simpl.
  destruct (generate_content env _) eqn:G; simpl;
    eexists; (split; [reflexivity|]); simpl; rewrite <- app_assoc; simpl;
    unfold reply; rewrite G; auto.
Qed.

Lemma submit_all_run (api_key : string) (steps : list (Env * Submission)) :
  forall (s : SessionState) (l : list Message),
  authenticated s -> messages s = Some l ->
  Forall (fun step => sub_text (snd step) <> EmptyString) steps ->
  submit_all api_key steps s
  = (Ok tt, mkSession (logged_in s) (user_info s)
                      (Some (l ++ flat_map turns steps)%list)).
Proof.
  induction steps as [|[env sub] rest IH]; intros s l Ha Hm Hne; simpl.
  - rewrite app_nil_r. destruct s; simpl in *; now subst.
  - inversion Hne as [|? ? Hsub Hrest]; subst; simpl in *.
    destruct (submit_run env api_key sub s l Ha Hm Hsub) as (w & Hrun & Hs & _).
    rewrite Hrun.
    rewrite (IH (session w) (l ++ turns (env, sub))%list).
    + rewrite Hs; simpl. now rewrite <- app_assoc.
    + rewrite Hs; exact Ha.
    + now rewrite Hs.
    + exact Hrest.
Qed.

Lemma nth_error_pairs {A B : Type} (f g : A -> B) (steps : list A) :
  forall (k : nat) (step : A),
    nth_error steps k = Some step ->
    nth_error (flat_map (fun x => [f x; g x]) steps) (2 * k) = Some (f step)
    /\ nth_error (flat_map (fun x => [f x; g x]) steps) (2 * k + 1)
       = Some (g step).
Proof.
  induction steps as [|x rest IH]; intros [|k] step H; simpl in H;
    try discriminate H.
  - injection H as <-. split; reflexivity.
  - replace (2 * S k)%nat with (S (S (2 * k))) by lia.
    replace (S (S (2 * k)) + 1)%nat with (S (S (2 * k + 1))) by lia.
    simpl. apply (IH k step H).
Qed.

(** C1. In the Authenticated state, N text submissions leave a transcript
    that is the old one followed by, for each submission in order, its
    user turn and then one assistant turn: the length grows by 2N, every
    entry that was there before is still there, at the same place, with
    the same role, content and languages, and the k-th submission put at
    place (old length + 2k) the dict with role "user", the submitted text
    and the two selected languages, and right after it the dict with
    role "assistant", no languages, and as content the model's text or
    the recorded error. *)
Theorem transcript_append_only (api_key : string)
    (steps : list (Env * Submission)) (s : SessionState) (l : list Message) :
  authenticated s -> messages s = Some l ->
  Forall (fun step => sub_text (snd step) <> EmptyString) steps ->
  exists s' l',
    submit_all api_key steps s = (Ok tt, s')
    /\ messages s' = Some l'
    /\ l' = (l ++ flat_map turns steps)%list
    /\ length l' = (length l + 2 * length steps)%nat
    /\ (forall i m, nth_error l i = Some m -> nth_error l' i = Some m)
    /\ logged_in s' = logged_in s /\ user_info s' = user_info s
    /\ (forall (k : nat) (env : Env) (sub : Submission),
          nth_error steps k = Some (env, sub) ->
          nth_error l' (length l + 2 * k)
          = Some (mkMessage "user" (sub_text sub)
                            (Some (sub_source sub)) (Some (sub_target sub)))
          /\ nth_error l' (length l + 2 * k + 1)
             = Some (mkMessage "assistant"
                       (match generate_content env
                                ("Translate the following " ++ sub_source sub
                                   ++ " text to " ++ sub_target sub ++ ": "
                                   ++ dquote ++ sub_text sub ++ dquote)
                        with
                        | GenText t => t
                        | GenRaises e =>
                            "Error: An error occurred during translation: " ++ e
                        end)
                       None None)).
Proof.
  intros Ha Hm Hne.
  exists (mkSession (logged_in s) (user_info s)
                    (Some (l ++ flat_map turns steps)%list)),
         (l ++ flat_map turns steps)%list.
  split; [apply (submit_all_run _ _ _ l); assumption|].
  split; [reflexivity|]. split; [reflexivity|].
  split.
  { rewrite length_app. f_equal.
    clear; induction steps as [|st rest IH]; simpl; [reflexivity|lia]. }
  split.
  { intros i m Hi. rewrite nth_error_app1; [exact Hi|].
    apply nth_error_Some; congruence. }
  split; [reflexivity|]. split; [reflexivity|].
  intros k env sub H.
  destruct (nth_error_pairs
              (fun st => user_turn (sub_text (snd st)) (sub_source (snd st))
                                   (sub_target (snd st)))
              (fun st => assistant_turn (reply (fst st) (snd st)))
              steps k (env, sub) H) as [Hu Ha'].
  split.
  - rewrite nth_error_app2 by lia.
    replace (length l + 2 * k - length l)%nat with (2 * k)%nat by lia.
    exact Hu.
  - rewrite nth_error_app2 by lia.
    replace (length l + 2 * k + 1 - length l)%nat with (2 * k + 1)%nat by lia.
    exact Ha'.
Qed.

Lemma transcript_append_only_witness :
  exists s' l',
    submit_all "K" [(world_up, hello); (world_rejecting, hello)] signed_in
    = (Ok tt, s')
    /\ messages s' = Some l'
    /\ l' = ([greeting] ++ flat_map turns
                [(world_up, hello); (world_rejecting, hello)])%list
    /\ length l' = (1 + 2 * 2)%nat
    /\ (forall i m, nth_error [greeting] i = Some m -> nth_error l' i = Some m)
    /\ logged_in s' = Some true /\ user_info s' = Some account
    /\ (forall (k : nat) (env : Env) (sub : Submission),
          nth_error [(world_up, hello); (world_rejecting, hello)] k
          = Some (env, sub) ->
          nth_error l' (1 + 2 * k)
          = Some (mkMessage "user" (sub_text sub)
                            (Some (sub_source sub)) (Some (sub_target sub)))
          /\ nth_error l' (1 + 2 * k + 1)
             = Some (mkMessage "assistant"
                       (match generate_content env
                                ("Translate the following " ++ sub_source sub
                                   ++ " text to " ++ sub_target sub ++ ": "
                                   ++ dquote ++ sub_text sub ++ dquote)
                        with
                        | GenText t => t
                        | GenRaises e =>
                            "Error: An error occurred during translation: " ++ e
                        end)
                       None None)).
Proof.
  apply (transcript_append_only "K"
           [(world_up, hello); (world_rejecting, hello)] signed_in [greeting]).
  - split; [reflexivity | eexists; reflexivity].
  - reflexivity.
  - repeat constructor; discriminate.
Defined.

Lemma append_empty_r (s : string) : s ++ EmptyString = s.
Proof.
  induction s as [|c s IH]; [reflexivity|].
  change (String c (s ++ EmptyString) = String c s). now rewrite IH.
Qed.

Lemma contains_suffix (pre s : string) : contains (pre ++ s) s.
Proof.
  exists pre, EmptyString. now rewrite append_empty_r.
Qed.

(** C2. When the translation call of a submission fails, the run still
    ends normally and the stored transcript gains the user turn (role
    "user", the text, both languages) and then the dict with role
    "assistant" whose content is "Error: An error occurred during
    translation: " followed by the failure message, which it therefore
    contains; the failure is also drawn as an error, and the [logged_in]
    flag is what it was. *)
Theorem failed_translation_recorded (env : Env) (api_key : string)
    (sub : Submission) (s : SessionState) (l : list Message) (e : string) :
  authenticated s -> messages s = Some l -> sub_text sub <> EmptyString ->
  generate_content env
    (translation_prompt (sub_source sub) (sub_target sub) (sub_text sub))
  = GenRaises e ->
  exists w c,
    run_app env api_key (submit sub) s = (Ok tt, w)
    /\ messages (session w)
       = Some (l ++ [mkMessage "user" (sub_text sub)
                               (Some (sub_source sub)) (Some (sub_target sub));
                     mkMessage "assistant" c None None])%list
    /\ c = "Error: An error occurred during translation: " ++ e
    /\ contains c e
    /\ In (StError ("An error occurred during translation: " ++ e)) (ui w)
    /\ logged_in (session w) = logged_in s.
Proof.
  intros [Hli [d Hui]] Hm Ht Hg. destruct s as [li ui0 ms]; simpl in *; subst.
  unfold run_app, app, translator_view, init_login_state, bind; simpl.
  rewrite render_history_run; simpl.
  unfold str_truthy.
  destruct (String.eqb_spec (sub_text sub) EmptyString) as [E|_];
    [contradiction|]; simpl.
  unfold on_chat_input, bind; simpl. rewrite Hg; simpl.
  eexists; eexists; split; [reflexivity|]; simpl.
  rewrite <- app_assoc; simpl.
  split; [reflexivity|]. split; [reflexivity|].
  split; [apply (contains_suffix "Error: An error occurred during translation: " e)|].
  split; [|reflexivity].
  do 5 right. rewrite !in_app_iff; simpl. auto 20.
Qed.

Lemma failed_translation_recorded_witness :
  exists w c,
    run_app world_rejecting "K" (submit hello) signed_in = (Ok tt, w)
    /\ messages (session w)
       = Some ([greeting] ++ [mkMessage "user" "Hello"
                                        (Some "English") (Some "Spanish");
                              mkMessage "assistant" c None None])%list
    /\ c = "Error: An error occurred during translation: " ++ "quota exceeded"
    /\ contains c "quota exceeded"
    /\ In (StError ("An error occurred during translation: "
                      ++ "quota exceeded")) (ui w)
    /\ logged_in (session w) = Some true.
Proof.
  apply (failed_translation_recorded world_rejecting "K" hello signed_in
           [greeting] "quota exceeded").
  - split; [reflexivity | eexists; reflexivity].
  - reflexivity.
  - discriminate.
  - reflexivity.
Defined.

(** C3. A submission makes exactly one call to the model, with one prompt
    that is the template filled with the source language, the target
    language and the submitted text between double quotes; when the model
    answers, the transcript gains the user turn with the text and both
    languages, then an assistant turn whose content is the model's text,
    character for character. *)
Theorem translation_success (env : Env) (api_key : string)
    (sub : Submission) (s : SessionState) (l : list Message) (t : string) :
  authenticated s -> messages s = Some l -> sub_text sub <> EmptyString ->
  generate_content env
    (translation_prompt (sub_source sub) (sub_target sub) (sub_text sub))
  = GenText t ->
  exists w p,
    run_app env api_key (submit sub) s = (Ok tt, w)
    /\ calls w = [GenerateContent p]
    /\ p = "Translate the following " ++ sub_source sub ++ " text to "
             ++ sub_target sub ++ ": " ++ dquote ++ sub_text sub ++ dquote
    /\ messages (session w)
       = Some (l ++ [mkMessage "user" (sub_text sub)
                               (Some (sub_source sub)) (Some (sub_target sub));
                     mkMessage "assistant" t None None])%list.
Proof.
  intros Ha Hm Ht Hg.
  destruct (submit_run env api_key sub s l Ha Hm Ht) as (w & Hrun & Hs & Hc).
  exists w, (translation_prompt (sub_source sub) (sub_target sub) (sub_text sub)).
  rewrite Hs; simpl. unfold turns, reply; simpl; rewrite Hg.
  repeat split; trivial.
Qed.

Lemma translation_success_witness :
  exists w p,
    run_app world_up "K" (submit hello) signed_in = (Ok tt, w)
    /\ calls w = [GenerateContent p]
    /\ p = "Translate the following " ++ "English" ++ " text to "
             ++ "Spanish" ++ ": " ++ dquote ++ "Hello" ++ dquote
    /\ messages (session w)
       = Some ([greeting] ++ [mkMessage "user" "Hello"
                                        (Some "English") (Some "Spanish");
                              mkMessage "assistant" "Hola" None None])%list.
Proof.
  apply (translation_success world_up "K" hello signed_in [greeting] "Hola").
  - split; [reflexivity | eexists; reflexivity].
  - reflexivity.
  - discriminate.
  - reflexivity.
Defined.

(** C4. Whatever the session holds, [logout_user] leaves [logged_in]
    false, [user_info] None and the transcript empty, and asks for a
    rerun; calling it again on the result gives the same session. *)
Theorem logout_resets (w : World) :
  fst (logout_user w) = Abort Rerun
  /\ session (snd (logout_user w)) = logged_out
  /\ logged_in (session (snd (logout_user w))) = Some false
  /\ user_info (session (snd (logout_user w))) = Some JNull
  /\ messages (session (snd (logout_user w))) = Some []
  /\ session (snd (logout_user (snd (logout_user w))))
     = session (snd (logout_user w)).
Proof.
  destruct w as [s u c]. unfold logout_user, bind; simpl. repeat split.
Qed.

(** C5. In the translator view, pressing Clear Chat (and not Logout)
    replaces the transcript, whatever its length K, by exactly one turn:
    the assistant turn "Chat cleared! How can I help you now?"; the rerun
    that follows keeps it. *)
Theorem clear_chat_single_turn (env : Env) (api_key : string) (w : Widgets)
    (s : SessionState) (l : list Message) :
  authenticated s -> messages s = Some l -> (0 < length l)%nat ->
  logout_button w = false -> clear_button w = true ->
  exists w1 w2,
    run_app env api_key w s = (Abort Rerun, w1)
    /\ messages (session w1) = Some [cleared_greeting]
    /\ interact env api_key w s = (Ok tt, w2)
    /\ messages (session w2) = Some [cleared_greeting]
    /\ length [cleared_greeting] = 1%nat
    /\ role cleared_greeting = "assistant"
    /\ content cleared_greeting = "Chat cleared! How can I help you now?".
Proof.
  intros [Hli [d Hui]] Hm _ Hlo Hcl.
  destruct s as [li ui0 ms]; simpl in *; subst.
  unfold interact, run_app, app, translator_view, init_login_state, bind; simpl.
  rewrite Hlo, Hcl; simpl.
  rewrite render_history_run; simpl.
  destruct (chat_input_text w) as [prompt|]; simpl.
  - unfold when. destruct (str_truthy prompt); simpl.
    + unfold on_chat_input, bind; simpl.
      destruct (generate_content env _); simpl;
        do 2 eexists; repeat split.
    + do 2 eexists; repeat split.
  - do 2 eexists; repeat split.
Qed.

Lemma clear_chat_single_turn_witness :
  exists w1 w2,
    run_app world_up "K" press_clear signed_in = (Abort Rerun, w1)
    /\ messages (session w1) = Some [cleared_greeting]
    /\ interact world_up "K" press_clear signed_in = (Ok tt, w2)
    /\ messages (session w2) = Some [cleared_greeting]
    /\ length [cleared_greeting] = 1%nat
    /\ role cleared_greeting = "assistant"
    /\ content cleared_greeting = "Chat cleared! How can I help you now?".
Proof.
  apply (clear_chat_single_turn world_up "K" press_clear signed_in [greeting]).
  - split; [reflexivity | eexists; reflexivity].
  - reflexivity.
  - simpl; lia.
  - reflexivity.
  - reflexivity.
Defined.

Lemma str_truthy_false (s : string) : s = EmptyString -> str_truthy s = false.
Proof. intros ->; reflexivity. Qed.

Lemma str_truthy_true (s : string) : s <> EmptyString -> str_truthy s = true.
Proof.
  intros H. unfold str_truthy.
  destruct (String.eqb_spec s EmptyString); [contradiction | reflexivity].
Qed.

(** C6. A registration submission whose password and confirmation differ,
    or whose password has fewer than 6 characters, or with an empty field,
    adds no call to the log of outside calls (sign-up is not invoked) and
    draws exactly one of the validation messages; the session is
    untouched.  On the login page with only Register pressed, the whole
    run makes no outside call. *)
Theorem registration_validated_locally (env : Env) (api_key : string)
    (w : Widgets) :
  register_button w = true ->
  (register_password w <> confirm_password w
   \/ (py_len (register_password w) < 6)%nat
   \/ register_email w = EmptyString
   \/ register_password w = EmptyString
   \/ confirm_password w = EmptyString) ->
  (forall world : World,
     exists msg,
       register_form env api_key w world
       = (Ok tt, mkWorld (session world) (ui world ++ [msg]) (calls world))
       /\ In msg validation_messages)
  /\ (forall s : SessionState,
        logged_in s <> Some true -> login_button w = false ->
        fst (run_app env api_key w s) = Ok tt
        /\ calls (snd (run_app env api_key w s)) = []
        /\ exists msg, In msg validation_messages
                       /\ In msg (ui (snd (run_app env api_key w s)))).
Proof.
  intros Hb Hbad.
  assert (Hform : forall world : World,
     exists msg,
       register_form env api_key w world
       = (Ok tt, mkWorld (session world) (ui world ++ [msg]) (calls world))
       /\ In msg validation_messages).
  { intros world. unfold register_form, when. rewrite Hb.
    destruct (str_truthy (register_email w)) eqn:He; simpl;
      [|eexists; split; [reflexivity | simpl; auto]].
    destruct (str_truthy (register_password w)) eqn:Hp; simpl;
      [|eexists; split; [reflexivity | simpl; auto]].
    destruct (str_truthy (confirm_password w)) eqn:Hc; simpl;
      [|eexists; split; [reflexivity | simpl; auto]].
    destruct (String.eqb_spec (register_password w) (confirm_password w))
      as [Heq|Hneq]; [|eexists; split; [reflexivity | simpl; auto]].
    destruct (6 <=? Z.of_nat (py_len (register_password w))) eqn:Hlen;
      [|eexists; split; [reflexivity | simpl; auto]].
    exfalso. apply Z.leb_le in Hlen.
    destruct Hbad as [H|[H|[H|[H|H]]]].
    - contradiction.
    - lia.
    - rewrite (str_truthy_false _ H) in He; discriminate.
    - rewrite (str_truthy_false _ H) in Hp; discriminate.
    - rewrite (str_truthy_false _ H) in Hc; discriminate. }
  split; [exact Hform|].
  intros s Hs Hl.
  unfold run_app, app, init_login_state, auth_view, login_form, bind, when.
  rewrite Hl.
  destruct s as [[[|]|] [v|] ms]; simpl in *; try congruence;
    match goal with
    | |- context [register_form env api_key w ?w0] =>
        destruct (Hform w0) as (msg & -> & Hin); simpl;
        (split; [reflexivity|]); (split; [reflexivity|]);
        exists msg; split; [exact Hin|];
        repeat (apply in_cons || (apply in_eq; fail)); auto 10 with datatypes
    end.
Qed.

Lemma registration_validated_locally_witness :
  (forall world : World,
     exists msg,
       register_form world_up "K"
         (press_register "ada@example.org" "日本語" "日本語") world
       = (Ok tt, mkWorld (session world) (ui world ++ [msg]) (calls world))
       /\ In msg validation_messages)
  /\ (forall s : SessionState,
        logged_in s <> Some true ->
        login_button (press_register "ada@example.org" "日本語" "日本語")
        = false ->
        fst (run_app world_up "K"
               (press_register "ada@example.org" "日本語" "日本語") s) = Ok tt
        /\ calls (snd (run_app world_up "K"
               (press_register "ada@example.org" "日本語" "日本語") s)) = []
        /\ exists msg, In msg validation_messages
             /\ In msg (ui (snd (run_app world_up "K"
                  (press_register "ada@example.org" "日本語" "日本語") s)))).
Proof.
  apply (registration_validated_locally world_up "K"
           (press_register "ada@example.org" "日本語" "日本語")).
  - reflexivity.
  - right; left; vm_compute; lia.
Defined.

(** What [login_user] and [signup_user] do with a 400 response that
    carries the provider's error body. *)
Lemma auth_call_rejected (env : Env) (endpoint what fallback : string)
    (api_key email password : string) (world : World) (r : Response)
    (d ed : list (string * json)) :
  requests_post env (auth_request endpoint api_key email password)
  = PostReturns r ->
  status_code r = 400 -> body r = Some (JObj d) ->
  dict_get d "error" (JObj []) = JObj ed ->
  auth_call env endpoint what fallback api_key email password world
  = (Ok JNull,
     mkWorld (session world)
             (ui world ++ [StError (what ++ " failed: " ++ http_error_text r);
                           StError ("Error: " ++ py_str env
                                      (dict_get ed "message" (JStr fallback)))])
             (calls world ++ [HttpPost (auth_request endpoint api_key
                                                     email password)])).
Proof.
  intros Hp Hs Hb He. destruct world as [s u c].
  unfold auth_call, post, bind, record_call, ret; simpl.
  unfold auth_request in Hp. rewrite Hp.
  unfold raise_for_status. rewrite Hs; simpl.
  unfold auth_except, bind, draw, read_local, ret, response_json; simpl.
  rewrite Hs, Hb; simpl. unfold py_get, ret. rewrite He; simpl.
  now rewrite <- app_assoc.
Qed.

(** C7. When the provider rejects a login (a 400 response with its error
    body), [login_user] returns None after drawing "Login failed: ..."
    and "Error: <the provider's message>", and the login form leaves the
    whole session state as it was: in particular [logged_in] stays
    false.  On the login page the run ends normally with the session
    unchanged. *)
Theorem login_rejected_keeps_session (env : Env) (api_key : string)
    (w : Widgets) (r : Response) (d ed : list (string * json)) :
  login_button w = true ->
  login_email w <> EmptyString -> login_password w <> EmptyString ->
  requests_post env (auth_request "signInWithPassword" api_key
                                  (login_email w) (login_password w))
  = PostReturns r ->
  status_code r = 400 -> body r = Some (JObj d) ->
  dict_get d "error" (JObj []) = JObj ed ->
  let shown :=
    [StError ("Login failed: " ++ http_error_text r);
     StError ("Error: " ++ py_str env
                (dict_get ed "message"
                          (JStr "Invalid credentials or Firebase error")))] in
  (forall world : World,
     fst (login_user env api_key (login_email w) (login_password w) world)
     = Ok JNull
     /\ login_form env api_key w world
        = (Ok tt, mkWorld (session world) (ui world ++ shown)
                          (calls world ++
                             [HttpPost (auth_request "signInWithPassword" api_key
                                          (login_email w) (login_password w))])))
  /\ (forall (s : SessionState) (v : json),
        logged_in s = Some false -> user_info s = Some v ->
        register_button w = false ->
        fst (run_app env api_key w s) = Ok tt
        /\ session (snd (run_app env api_key w s)) = s
        /\ logged_in (session (snd (run_app env api_key w s))) = Some false).
Proof.
  intros Hb He Hp Hpost Hs Hbody Herr shown.
  assert (Hform : forall world : World,
    login_form env api_key w world
    = (Ok tt, mkWorld (session world) (ui world ++ shown)
                      (calls world ++
                         [HttpPost (auth_request "signInWithPassword" api_key
                                      (login_email w) (login_password w))]))).
  { intros world. unfold login_form, when, login_user, bind.
    rewrite Hb, (str_truthy_true _ He), (str_truthy_true _ Hp); simpl.
    now rewrite (auth_call_rejected env _ _ _ _ _ _ world r d ed Hpost Hs Hbody Herr). }
  split.
  - intros world. split; [|apply Hform].
    unfold login_user.
    now rewrite (auth_call_rejected env _ _ _ _ _ _ world r d ed Hpost Hs Hbody Herr).
  - intros s v Hli Hui Hreg. destruct s as [li ui0 ms]; simpl in *; subst.
    unfold run_app, app, init_login_state, auth_view, bind; simpl.
    rewrite Hform; simpl.
    unfold register_form, when. rewrite Hreg; simpl. repeat split.
Qed.

Lemma login_rejected_keeps_session_witness :
  (forall world : World,
     fst (login_user world_rejecting "K" "ada@example.org" "wrong-pw" world)
     = Ok JNull
     /\ login_form world_rejecting "K"
          (press_login "ada@example.org" "wrong-pw") world
        = (Ok tt,
           mkWorld (session world)
             (ui world ++
                [StError ("Login failed: "
                            ++ "400 Client Error: Bad Request for url");
                 StError ("Error: " ++ "INVALID_LOGIN_CREDENTIALS")])
             (calls world ++
                [HttpPost (auth_request "signInWithPassword" "K"
                             "ada@example.org" "wrong-pw")])))
  /\ (forall (s : SessionState) (v : json),
        logged_in s = Some false -> user_info s = Some v ->
        register_button (press_login "ada@example.org" "wrong-pw") = false ->
        fst (run_app world_rejecting "K"
               (press_login "ada@example.org" "wrong-pw") s) = Ok tt
        /\ session (snd (run_app world_rejecting "K"
               (press_login "ada@example.org" "wrong-pw") s)) = s
        /\ logged_in (session (snd (run_app world_rejecting "K"
               (press_login "ada@example.org" "wrong-pw") s))) = Some false).
Proof.
  apply (login_rejected_keeps_session world_rejecting "K"
           (press_login "ada@example.org" "wrong-pw")
           (mkResponse 400 "400 Client Error: Bad Request for url"
                       (Some rejection) EmptyString)
           [("error", JObj [("code", JNum "400");
                            ("message", JStr "INVALID_LOGIN_CREDENTIALS")])]
           [("code", JNum "400");
            ("message", JStr "INVALID_LOGIN_CREDENTIALS")]).
  - reflexivity.
  - discriminate.
  - discriminate.
  - reflexivity.
  - reflexivity.
  - reflexivity.
  - reflexivity.
Defined.

Lemma auth_call_transport_failure (env : Env) (endpoint what fallback : string)
    (api_key email password : string) (world : World) (e : string) :
  requests_post env (auth_request endpoint api_key email password)
  = PostRaises e ->
  auth_call env endpoint what fallback api_key email password world
  = (Abort (Uncaught (UnboundLocalError "response")),
     mkWorld (session world)
             (ui world ++ [StError (what ++ " failed: " ++ e)])
             (calls world ++ [HttpPost (auth_request endpoint api_key
                                                     email password)])).
Proof.
  intros Hp. destruct world as [s u c].
  unfold auth_call, post, bind, record_call, ret; simpl.
  unfold auth_request in Hp. now rewrite Hp.
Qed.

(** C8 (what the code does). When [requests.post] itself raises, the
    handler draws "Signup failed: ..." (resp. "Login failed: ...") and
    then reads the local [response], which was never assigned: the call
    does not return None, it ends with an uncaught UnboundLocalError. *)
Theorem transport_failure_escapes (env : Env) (api_key email password : string)
    (world : World) (e : string) :
  requests_post env (auth_request "signUp" api_key email password)
  = PostRaises e ->
  requests_post env (auth_request "signInWithPassword" api_key email password)
  = PostRaises e ->
  signup_user env api_key email password world
  = (Abort (Uncaught (UnboundLocalError "response")),
     mkWorld (session world)
             (ui world ++ [StError ("Signup failed: " ++ e)])
             (calls world ++ [HttpPost (auth_request "signUp" api_key
                                                     email password)]))
  /\ login_user env api_key email password world
     = (Abort (Uncaught (UnboundLocalError "response")),
        mkWorld (session world)
                (ui world ++ [StError ("Login failed: " ++ e)])
                (calls world ++ [HttpPost (auth_request "signInWithPassword"
                                             api_key email password)])).
Proof.
  intros Hs Hl. unfold signup_user, login_user.
  now rewrite (auth_call_transport_failure env _ _ _ _ _ _ world e Hs),
              (auth_call_transport_failure env _ _ _ _ _ _ world e Hl).
Qed.

Lemma transport_failure_escapes_witness :
  signup_user world_offline "K" "ada@example.org" "secret1"
              (mkWorld fresh_session [] [])
  = (Abort (Uncaught (UnboundLocalError "response")),
     mkWorld fresh_session
             ([] ++ [StError ("Signup failed: " ++ "Connection refused")])
             ([] ++ [HttpPost (auth_request "signUp" "K"
                                            "ada@example.org" "secret1")]))
  /\ login_user world_offline "K" "ada@example.org" "secret1"
                (mkWorld fresh_session [] [])
     = (Abort (Uncaught (UnboundLocalError "response")),
        mkWorld fresh_session
                ([] ++ [StError ("Login failed: " ++ "Connection refused")])
                ([] ++ [HttpPost (auth_request "signInWithPassword" "K"
                                               "ada@example.org" "secret1")])).
Proof.
  apply (transport_failure_escapes world_offline "K" "ada@example.org"
           "secret1" (mkWorld fresh_session [] []) "Connection refused").
  - reflexivity.
  - reflexivity.
Defined.

Lemma auth_call_success (env : Env) (endpoint what fallback : string)
    (api_key email password : string) (world : World) (r : Response)
    (j : json) :
  requests_post env (auth_request endpoint api_key email password)
  = PostReturns r ->
  raise_for_status r = None -> body r = Some j ->
  auth_call env endpoint what fallback api_key email password world
  = (Ok j,
     mkWorld (session world) (ui world)
             (calls world ++ [HttpPost (auth_request endpoint api_key
                                                     email password)])).
Proof.
  intros Hp Hs Hb. destruct world as [s u c].
  unfold auth_call, post, bind, record_call, ret; simpl.
  unfold auth_request in Hp. now rewrite Hp, Hs, Hb.
Qed.

(** C9. A registration that passes the local checks and that the provider
    accepts (a response below 400 whose JSON body is the non-empty
    account record) draws the success notice and leaves the session
    state as it was.  On the login page the run ends normally, without
    asking for a rerun, with [logged_in] false and [user_info] None: the
    user is not signed in. *)
Theorem registration_does_not_log_in (env : Env) (api_key : string)
    (w : Widgets) (r : Response) (j : json) :
  register_button w = true ->
  register_email w <> EmptyString -> register_password w <> EmptyString ->
  confirm_password w = register_password w ->
  (6 <= py_len (register_password w))%nat ->
  requests_post env (auth_request "signUp" api_key
                                  (register_email w) (register_password w))
  = PostReturns r ->
  raise_for_status r = None -> body r = Some j -> py_truthy j = true ->
  (forall world : World,
     register_form env api_key w world
     = (Ok tt,
        mkWorld (session world)
                (ui world ++
                   [StSuccess "Registration successful! You can now log in."])
                (calls world ++
                   [HttpPost (auth_request "signUp" api_key
                                (register_email w) (register_password w))])))
  /\ (forall s : SessionState,
        logged_in s = None \/ logged_in s = Some false ->
        user_info s = None \/ user_info s = Some JNull ->
        login_button w = false ->
        fst (run_app env api_key w s) = Ok tt
        /\ session (snd (run_app env api_key w s))
           = mkSession (Some false) (Some JNull) (messages s)
        /\ In (StSuccess "Registration successful! You can now log in.")
              (ui (snd (run_app env api_key w s)))).
Proof.
  intros Hb He Hp Hc Hlen Hpost Hs Hbody Ht.
  assert (Hform : forall world : World,
     register_form env api_key w world
     = (Ok tt,
        mkWorld (session world)
                (ui world ++
                   [StSuccess "Registration successful! You can now log in."])
                (calls world ++
                   [HttpPost (auth_request "signUp" api_key
                                (register_email w) (register_password w))]))).
  { intros world. unfold register_form, when, signup_user, bind.
    rewrite Hb, Hc, (str_truthy_true _ He), (str_truthy_true _ Hp); simpl.
    rewrite String.eqb_refl.
    replace (6 <=? Z.of_nat (py_len (register_password w))) with true
      by (symmetry; apply Z.leb_le; lia).
    rewrite (auth_call_success env _ _ _ _ _ _ world r j Hpost Hs Hbody).
    rewrite Ht. reflexivity. }
  split; [exact Hform|].
  intros s Hli Hui Hlog.
  destruct s as [li ui0 ms]; simpl in *.
  unfold run_app, app, init_login_state, auth_view, login_form, bind, when.
  rewrite Hlog.
  destruct Hli as [-> | ->], Hui as [-> | ->]; simpl;
    rewrite Hform; simpl; (repeat split); auto 10 with datatypes.
Qed.

Lemma registration_does_not_log_in_witness :
  (forall world : World,
     register_form world_up "K"
       (press_register "ada@example.org" "secret1" "secret1") world
     = (Ok tt,
        mkWorld (session world)
                (ui world ++
                   [StSuccess "Registration successful! You can now log in."])
                (calls world ++
                   [HttpPost (auth_request "signUp" "K"
                                "ada@example.org" "secret1")])))
  /\ (forall s : SessionState,
        logged_in s = None \/ logged_in s = Some false ->
        user_info s = None \/ user_info s = Some JNull ->
        login_button (press_register "ada@example.org" "secret1" "secret1")
        = false ->
        fst (run_app world_up "K"
               (press_register "ada@example.org" "secret1" "secret1") s) = Ok tt
        /\ session (snd (run_app world_up "K"
               (press_register "ada@example.org" "secret1" "secret1") s))
           = mkSession (Some false) (Some JNull) (messages s)
        /\ In (StSuccess "Registration successful! You can now log in.")
              (ui (snd (run_app world_up "K"
                 (press_register "ada@example.org" "secret1" "secret1") s)))).
Proof.
  apply (registration_does_not_log_in world_up "K"
           (press_register "ada@example.org" "secret1" "secret1")
           (mkResponse 200 EmptyString (Some account) EmptyString) account).
  - reflexivity.
  - discriminate.
  - discriminate.
  - reflexivity.
  - simpl; lia.
  - reflexivity.
  - reflexivity.
  - reflexivity.
  - reflexivity.
Defined.

(** A successful login from the login page: the run stores the account,
    asks for a rerun, and the rerun draws the translator view, where the
    transcript is created with the greeting only if the [messages] key is
    absent. *)
Lemma login_interaction (env : Env) (api_key : string) (w : Widgets)
    (r : Response) (d : list (string * json)) (s : SessionState) :
  login_button w = true ->
  login_email w <> EmptyString -> login_password w <> EmptyString ->
  requests_post env (auth_request "signInWithPassword" api_key
                                  (login_email w) (login_password w))
  = PostReturns r ->
  raise_for_status r = None -> body r = Some (JObj d) -> d <> [] ->
  logged_in s = None \/ logged_in s = Some false ->
  exists w',
    interact env api_key w s = (Ok tt, w')
    /\ session w'
       = mkSession (Some true) (Some (JObj d))
                   (Some (match messages s with
                          | None => [greeting]
                          | Some l => l
                          end)).
Proof.
  intros Hb He Hp Hpost Hs Hbody Hd Hli.
  destruct s as [li ui0 ms]; simpl in *.
  assert (Ht : py_truthy (JObj d) = true)
    by (destruct d; [contradiction | reflexivity]).
  unfold interact, run_app, app, init_login_state, auth_view, login_form,
    login_user, bind, when.
  rewrite Hb, (str_truthy_true _ He), (str_truthy_true _ Hp).
  destruct Hli as [-> | ->], ui0 as [v|]; simpl;
    rewrite (auth_call_success env _ _ _ _ _ _ _ r (JObj d) Hpost Hs Hbody);
    rewrite Ht; simpl;
    unfold translator_view, init_messages, bind; simpl;
    destruct ms as [l|]; simpl;
    rewrite ?render_history_run; simpl;
    eexists; split; reflexivity.
Qed.

(** Pressing Logout in the translator view: the run resets the session
    and asks for a rerun, which draws the login page. *)
Lemma logout_interaction (env : Env) (api_key : string) (w : Widgets)
    (s : SessionState) :
  authenticated s -> logout_button w = true ->
  exists w', interact env api_key w s = (Ok tt, w') /\ session w' = logged_out.
Proof.
  intros [Hli [d Hui]] Hlo. destruct s as [li ui0 ms]; simpl in *; subst.
  unfold interact, run_app, app, init_login_state, translator_view, bind; simpl.
  rewrite Hlo; simpl. eexists; split; reflexivity.
Qed.

(** C10. The greeting turn is appended only while the [messages] key is
    absent.  The first successful login of a session (no [messages] key
    yet) opens the translator view with a transcript of exactly one
    turn, the dict with role "assistant", content "Hello! I'm your AI
    translator. Select languages and type to translate." and no
    languages; after a logout, which leaves [messages] present and
    empty, a successful login opens it with an empty transcript. *)
Theorem greeting_only_when_transcript_absent (env : Env) (api_key : string)
    (w : Widgets) (r : Response) (d : list (string * json)) :
  login_button w = true ->
  login_email w <> EmptyString -> login_password w <> EmptyString ->
  requests_post env (auth_request "signInWithPassword" api_key
                                  (login_email w) (login_password w))
  = PostReturns r ->
  raise_for_status r = None -> body r = Some (JObj d) -> d <> [] ->
  (forall s : SessionState,
     logged_in s = None \/ logged_in s = Some false ->
     messages s = None ->
     exists w1,
       interact env api_key w s = (Ok tt, w1)
       /\ logged_in (session w1) = Some true
       /\ messages (session w1)
          = Some [mkMessage "assistant"
                    "Hello! I'm your AI translator. Select languages and type to translate."
                    None None])
  /\ (forall (s : SessionState) (wl : Widgets) (envl : Env),
        authenticated s -> logout_button wl = true ->
        exists w1 w2,
          interact envl api_key wl s = (Ok tt, w1)
          /\ messages (session w1) = Some []
          /\ interact env api_key w (session w1) = (Ok tt, w2)
          /\ logged_in (session w2) = Some true
          /\ messages (session w2) = Some [])
  /\ (forall (world : World) (l : list Message),
        messages (session world) = Some l ->
        init_messages world = (Ok tt, world))
  /\ (forall world : World,
        messages (session world) = None ->
        fst (init_messages world) = Ok tt
        /\ messages (session (snd (init_messages world)))
           = Some [mkMessage "assistant"
                     "Hello! I'm your AI translator. Select languages and type to translate."
                     None None]).
Proof.
  intros Hb He Hp Hpost Hs Hbody Hd. split; [|split; [|split]].
  - intros s Hli Hm.
    destruct (login_interaction env api_key w r d s Hb He Hp Hpost Hs Hbody Hd Hli)
      as (w1 & Hrun & Hses).
    exists w1. rewrite Hses, Hm; simpl. auto.
  - intros s wl envl Ha Hlo.
    destruct (logout_interaction envl api_key wl s Ha Hlo) as (w1 & Hrun1 & Hs1).
    destruct (login_interaction env api_key w r d (session w1)
                Hb He Hp Hpost Hs Hbody Hd) as (w2 & Hrun2 & Hs2).
    { rewrite Hs1; right; reflexivity. }
    exists w1, w2. repeat split; trivial.
    + now rewrite Hs1.
    + now rewrite Hs2.
    + now rewrite Hs2, Hs1.
  - intros [s u c] l Hm; simpl in Hm.
    unfold init_messages, bind; simpl. now rewrite Hm.
  - intros [s u c] Hm; simpl in Hm.
    unfold init_messages, bind; simpl. rewrite Hm. split; reflexivity.
Qed.

Lemma greeting_only_when_transcript_absent_witness :
  (forall s : SessionState,
     logged_in s = None \/ logged_in s = Some false ->
     messages s = None ->
     exists w1,
       interact world_up "K" (press_login "ada@example.org" "secret1") s
       = (Ok tt, w1)
       /\ logged_in (session w1) = Some true
       /\ messages (session w1)
          = Some [mkMessage "assistant"
                    "Hello! I'm your AI translator. Select languages and type to translate."
                    None None])
  /\ (forall (s : SessionState) (wl : Widgets) (envl : Env),
        authenticated s -> logout_button wl = true ->
        exists w1 w2,
          interact envl "K" wl s = (Ok tt, w1)
          /\ messages (session w1) = Some []
          /\ interact world_up "K" (press_login "ada@example.org" "secret1")
                      (session w1) = (Ok tt, w2)
          /\ logged_in (session w2) = Some true
          /\ messages (session w2) = Some [])
  /\ (forall (world : World) (l : list Message),
        messages (session world) = Some l ->
        init_messages world = (Ok tt, world))
  /\ (forall world : World,
        messages (session world) = None ->
        fst (init_messages world) = Ok tt
        /\ messages (session (snd (init_messages world)))
           = Some [mkMessage "assistant"
                     "Hello! I'm your AI translator. Select languages and type to translate."
                     None None]).
Proof.
  apply (greeting_only_when_transcript_absent world_up "K"
           (press_login "ada@example.org" "secret1")
           (mkResponse 200 EmptyString (Some account) EmptyString)
           [("email", JStr "ada@example.org"); ("idToken", JStr "tok");
            ("localId", JStr "u1")]).
  - reflexivity.
  - discriminate.
  - discriminate.
  - reflexivity.
  - reflexivity.
  - reflexivity.
  - discriminate.
Defined.

Lemma secrets_file_read (env : Env) (name value : string) :
  secrets env !! name = Some value ->
  exists toml, secrets_toml env = Some toml.
Proof.
  unfold secrets. destruct (secrets_toml env) as [toml|]; [eauto|].
  simpl. rewrite lookup_empty. discriminate.
Qed.

(** X4. With every secret present and non-empty and the model loaded, the
    script draws nothing of its own and runs the page with the key read
    from the FIREBASE_API_KEY secret. *)
Lemma script_runs_app (env : Env) (w : Widgets) (g k a p i : string) :
  secrets env !! "GOOGLE_API_KEY" = Some g ->
  model_load_error env = None ->
  secrets env !! "FIREBASE_API_KEY" = Some k ->
  secrets env !! "FIREBASE_AUTH_DOMAIN" = Some a ->
  secrets env !! "FIREBASE_PROJECT_ID" = Some p ->
  secrets env !! "FIREBASE_APP_ID" = Some i ->
  k <> EmptyString -> a <> EmptyString -> p <> EmptyString -> i <> EmptyString ->
  forall world : World, script env w world = app env k w world.
Proof.
  intros Hg Hm Hk Ha Hp Hi Nk Na Np Ni world.
  destruct (secrets_file_read env _ _ Hg) as [toml Ht].
  unfold script. rewrite Ht, Hg, Hm, Hk, Ha, Hp, Hi.
  unfold bind at 1; unfold ret at 1.
  unfold bind at 1; unfold ret at 1.
  unfold bind at 1; unfold ret at 1.
  unfold forallb, secret_truthy.
  rewrite !str_truthy_true by assumption. reflexivity.
Qed.

(** * Further properties of the script *)

(** ** Start-up configuration *)

(** X1. With a secrets file that has no GOOGLE_API_KEY entry the script
    draws the one error message and stops: nothing else is drawn, no
    outside call is made and the session state is not touched, whatever
    the widgets hold.  With no secrets file at all the test of line 7
    itself raises: the run ends with that exception and the script has
    drawn nothing. *)
Theorem script_stops_without_google_key (env : Env) (w : Widgets)
    (world : World) :
  (forall toml : gmap string string,
     secrets_toml env = Some toml -> toml !! "GOOGLE_API_KEY" = None ->
     script env w world
     = (Abort Stop,
        mkWorld (session world)
                (ui world ++ [StError "Google API Key not found in Streamlit secrets. Please add it to .streamlit/secrets.toml"])
                (calls world)))
  /\ (secrets_toml env = None ->
      script env w world = (Abort (Uncaught FileNotFoundError), world)).
Proof.
  destruct world as [s u c]. split.
  - intros toml Ht Hg. unfold script, secrets. rewrite Ht; simpl.
    unfold bind at 1; unfold ret at 1. rewrite Hg. reflexivity.
  - intros Ht. unfold script. rewrite Ht. reflexivity.
Qed.

Lemma script_stops_without_google_key_witness :
  script world_up press_clear (mkWorld signed_in [] [])
  = (Abort Stop,
     mkWorld signed_in
             ([] ++ [StError "Google API Key not found in Streamlit secrets. Please add it to .streamlit/secrets.toml"])
             [])
  /\ script world_unconfigured press_clear (mkWorld signed_in [] [])
     = (Abort (Uncaught FileNotFoundError), mkWorld signed_in [] []).
Proof.
  split.
  - apply (proj1 (script_stops_without_google_key world_up press_clear
                    (mkWorld signed_in [] [])) ∅); reflexivity.
  - apply (proj2 (script_stops_without_google_key world_unconfigured
                    press_clear (mkWorld signed_in [] []))); reflexivity.
Defined.

(** X2. When the model cannot be loaded the script draws the error with
    the model name and the exception text, then the hint, and stops
    before the Firebase secrets are looked at: no outside call, session
    untouched. *)
Theorem script_stops_when_model_fails (env : Env) (w : Widgets)
    (world : World) (g e : string) :
  secrets env !! "GOOGLE_API_KEY" = Some g ->
  model_load_error env = Some e ->
  script env w world
  = (Abort Stop,
     mkWorld (session world)
             (ui world ++
                [StError ("Failed to load model 'gemini-1.5-flash-latest': " ++ e);
                 StInfo "Please check the model name or your API key/network connection."])
             (calls world)).
Proof.
  intros Hg He. destruct world as [s u c].
  destruct (secrets_file_read env _ _ Hg) as [toml Ht].
  unfold script. rewrite Ht, Hg, He.
  unfold bind, draw, ret, st_stop; simpl. now rewrite <- app_assoc.
Qed.

Lemma script_stops_when_model_fails_witness :
  script world_no_model press_clear (mkWorld signed_in [] [])
  = (Abort Stop,
     mkWorld signed_in
             ([] ++
                [StError ("Failed to load model 'gemini-1.5-flash-latest': "
                            ++ "404 model not found");
                 StInfo "Please check the model name or your API key/network connection."])
             []).
Proof.
  apply (script_stops_when_model_fails world_no_model press_clear
           (mkWorld signed_in [] []) "g-key" "404 model not found").
  - vm_compute; reflexivity.
  - reflexivity.
Defined.

(** X3. With the Google key present and the model loaded, the script
    stops with the Firebase configuration error as soon as one of the
    four Firebase secrets is absent or is the empty string. *)
Theorem script_stops_without_firebase_secret (env : Env) (w : Widgets)
    (world : World) (g name : string) :
  secrets env !! "GOOGLE_API_KEY" = Some g ->
  model_load_error env = None ->
  In name ["FIREBASE_API_KEY"; "FIREBASE_AUTH_DOMAIN";
           "FIREBASE_PROJECT_ID"; "FIREBASE_APP_ID"] ->
  secrets env !! name = None \/ secrets env !! name = Some EmptyString ->
  script env w world
  = (Abort Stop,
     mkWorld (session world)
             (ui world ++ [StError "Missing Firebase configuration in .streamlit/secrets.toml. Please check your setup."])
             (calls world)).
Proof.
  intros Hg Hm Hin Hbad. destruct world as [s u c].
  assert (Hf : secret_truthy (secrets env !! name) = false)
    by (destruct Hbad as [-> | ->]; reflexivity).
  destruct (secrets_file_read env _ _ Hg) as [toml Ht].
  unfold script. rewrite Ht, Hg, Hm.
  unfold bind at 1; unfold ret at 1. unfold bind at 1; unfold ret at 1.
  unfold bind at 1; unfold ret at 1.
  replace (forallb secret_truthy
             [secrets env !! "FIREBASE_API_KEY";
              secrets env !! "FIREBASE_AUTH_DOMAIN";
              secrets env !! "FIREBASE_PROJECT_ID";
              secrets env !! "FIREBASE_APP_ID"]) with false.
  - reflexivity.
  - symmetry. simpl in Hin.
    destruct Hin as [<- | [<- | [<- | [<- | []]]]]; simpl; rewrite Hf;
      rewrite ?andb_false_r; reflexivity.
Qed.

Lemma script_stops_without_firebase_secret_witness :
  script world_empty_app_id press_clear (mkWorld signed_in [] [])
  = (Abort Stop,
     mkWorld signed_in
             ([] ++ [StError "Missing Firebase configuration in .streamlit/secrets.toml. Please check your setup."])
             []).
Proof.
  apply (script_stops_without_firebase_secret world_empty_app_id press_clear
           (mkWorld signed_in [] []) "g-key" "FIREBASE_APP_ID").
  - vm_compute; reflexivity.
  - reflexivity.
  - simpl; auto.
  - right; vm_compute; reflexivity.
Defined.

Lemma script_runs_app_witness :
  script world_configured press_clear (mkWorld signed_in [] [])
  = app world_configured "K" press_clear (mkWorld signed_in [] []).
Proof.
  apply (script_runs_app world_configured press_clear
           "g-key" "K" "app.firebaseapp.com" "app" "1:2:web:3");
    solve [vm_compute; reflexivity | discriminate].
Defined.

(** ** Signals a computation can end with *)

Lemma never_ret (sg : signal) {A : Type} (a : A) : never sg (ret a).
Proof. intros w; discriminate. Qed.

Lemma never_bind (sg : signal) {A B : Type} (m : M A) (k : A -> M B) :
  never sg m -> (forall a, never sg (k a)) -> never sg (bind m k).
Proof.
  intros Hm Hk w. unfold bind. specialize (Hm w).
  destruct (m w) as [[a|s] w']; simpl in *; [apply Hk|].
  intros E; apply Hm; congruence.
Qed.

Lemma never_draw (sg : signal) (e : UiEvent) : never sg (draw e).
Proof. intros w; discriminate. Qed.

Lemma never_record_call (sg : signal) (c : Call) : never sg (record_call c).
Proof. intros w; discriminate. Qed.

Lemma never_get_session (sg : signal) : never sg get_session.
Proof. intros w; discriminate. Qed.

Lemma never_put_session (sg : signal) (s : SessionState) :
  never sg (put_session s).
Proof. intros w; discriminate. Qed.

Lemma never_raise (sg : signal) {A : Type} (e : exn) :
  sg <> Uncaught e -> never sg (@raise A e).
Proof. intros H w; simpl; congruence. Qed.

Lemma never_when (sg : signal) (b : bool) (m : M unit) :
  (b = true -> never sg m) -> never sg (when b m).
Proof. destruct b; intros H; [now apply H | apply never_ret]. Qed.

Lemma never_stop_rerun {A : Type} : never Stop (@st_rerun A).
Proof. intros w; discriminate. Qed.

Create HintDb never_db.
#[local] Hint Resolve never_ret never_draw never_record_call never_get_session
  never_put_session never_stop_rerun : never_db.

(** Walk through a computation built from [bind], [when], matches and the
    primitives above. *)
Ltac never_step :=
  match goal with
  | |- never _ (bind _ _) => apply never_bind; [|intros ?]
  | |- never _ (when _ _) => apply never_when; intros ?
  | |- never _ (raise _) => apply never_raise; discriminate
  | |- never _ (match ?x with _ => _ end) => destruct x
  | |- never _ (if ?b then _ else _) => destruct b
  | |- never _ _ => solve [auto with never_db]
  end.

Ltac never_tac := repeat never_step.

Lemma never_set_logged_in (sg : signal) (b : bool) : never sg (set_logged_in b).
Proof. unfold set_logged_in; never_tac. Qed.

Lemma never_set_user_info (sg : signal) (v : json) : never sg (set_user_info v).
Proof. unfold set_user_info; never_tac. Qed.

Lemma never_set_messages (sg : signal) (l : list Message) :
  never sg (set_messages l).
Proof. unfold set_messages; never_tac. Qed.

Lemma never_read_attr (sg : signal) {A : Type} (name : string) (v : option A) :
  sg <> Uncaught (AttributeError name) -> never sg (read_attr name v).
Proof. intros H. destruct v; [apply never_ret | now apply never_raise]. Qed.

Lemma never_append_message (sg : signal) (m : Message) :
  sg <> Uncaught (AttributeError "messages") -> never sg (append_message m).
Proof.
  intros H. unfold append_message.
  apply never_bind; [apply never_get_session | intros s].
  apply never_bind; [now apply never_read_attr | intros l].
  apply never_set_messages.
Qed.

#[local] Hint Resolve never_set_logged_in never_set_user_info
  never_set_messages : never_db.
#[local] Hint Extern 1 (never _ (append_message _)) =>
  apply never_append_message; discriminate : never_db.
#[local] Hint Extern 1 (never _ (read_attr _ _)) =>
  apply never_read_attr; discriminate : never_db.

Lemma never_render_history (sg : signal) (l : list Message) :
  never sg (render_history l).
Proof. intros w. rewrite render_history_run. discriminate. Qed.

Lemma never_stop_auth_call (env : Env) (endpoint what fallback : string)
    (api_key email password : string) :
  never Stop (auth_call env endpoint what fallback api_key email password).
Proof.
  unfold auth_call, post, auth_except, read_local, response_json, py_get.
  never_tac.
Qed.

Lemma never_stop_translator_view (env : Env) (w : Widgets) :
  never Stop (translator_view env w).
Proof.
  unfold translator_view, py_get, logout_user, init_messages, on_chat_input,
    clear_chat.
  repeat first [apply never_render_history | never_step].
Qed.

Lemma never_stop_auth_view (env : Env) (api_key : string) (w : Widgets) :
  never Stop (auth_view env api_key w).
Proof.
  unfold auth_view, login_form, register_form, login_user, signup_user.
  repeat first [apply never_stop_auth_call | never_step].
Qed.

(** X5. The page itself never calls [st.stop()]: whatever the widgets,
    the session and the outside world, a run of the page does not end
    with the stop signal.  So a run of the script that stops has stopped
    in the start-up configuration. *)
Theorem page_never_stops (env : Env) (api_key : string) (w : Widgets)
    (world : World) :
  fst (app env api_key w world) <> Abort Stop.
Proof.
  revert world. change (never Stop (app env api_key w)).
  unfold app, init_login_state.
  repeat first [apply never_stop_translator_view
               | apply never_stop_auth_view | never_step].
Qed.

Ltac quiet_step :=
  match goal with
  | |- never _ (when _ _) =>
      let H := fresh "H" in
      apply never_when; intros H; simpl in H; try discriminate H
  | |- never _ (render_history _) => apply never_render_history
  | _ => never_step
  end.

Lemma never_rerun_auth_call (env : Env) (endpoint what fallback : string)
    (api_key email password : string) :
  never Rerun (auth_call env endpoint what fallback api_key email password).
Proof.
  unfold auth_call, post, auth_except, read_local, response_json, py_get.
  never_tac.
Qed.

Lemma never_rerun_unpressed (env : Env) (api_key : string) (w : Widgets) :
  logout_button w = false -> clear_button w = false ->
  login_button w = false ->
  never Rerun (app env api_key w).
Proof.
  intros Hlo Hcl Hlg.
  unfold app, init_login_state, translator_view, auth_view, login_form,
    register_form, signup_user, py_get, init_messages, on_chat_input.
  rewrite Hlo, Hcl, Hlg.
  repeat first [apply never_rerun_auth_call | quiet_step].
Qed.

(** X6. Only Logout, Clear Chat or Login make the page ask for a rerun: a
    run that ends with a rerun had one of these three buttons pressed,
    whatever was typed or submitted and whatever the outside answered
    (a text submission or a registration alone never reruns).  Hence
    the run that follows a rerun, in which no button is pressed, never
    asks for another one, and a user action is settled after at most
    two runs. *)
Theorem rerun_settles (env : Env) (api_key : string) (w : Widgets) :
  (forall world : World,
     fst (app env api_key w world) = Abort Rerun ->
     logout_button w = true \/ clear_button w = true \/ login_button w = true)
  /\ (forall world : World, fst (app env api_key (idle w) world) <> Abort Rerun)
  /\ (forall s : SessionState, fst (interact env api_key w s) <> Abort Rerun).
Proof.
  assert (Hidle : never Rerun (app env api_key (idle w)))
    by (apply never_rerun_unpressed; reflexivity).
  split; [|split; [exact Hidle|]].
  - intros world Hrun.
    destruct (logout_button w) eqn:Hlo; [now left|].
    destruct (clear_button w) eqn:Hcl; [now right; left|].
    destruct (login_button w) eqn:Hlg; [now right; right|].
    exfalso. exact (never_rerun_unpressed env api_key w Hlo Hcl Hlg world Hrun).
  - intros s. unfold interact.
    destruct (run_app env api_key w s) as [[[]|[| |e]] w1] eqn:E; simpl;
      try discriminate.
    apply Hidle.
Qed.

Lemma rerun_settles_witness :
  logout_button press_clear = true \/ clear_button press_clear = true
  \/ login_button press_clear = true.
Proof.
  apply (proj1 (rerun_settles world_up "K" press_clear)
               (mkWorld signed_in [] [])).
  reflexivity.
Defined.

(** ** The authentication functions, whatever the provider answers *)

(** Case analysis on the innermost scrutinee, until none is left. *)
Ltac split_cases :=
  repeat (simpl;
          match goal with
          | |- context [match ?x with _ => _ end] =>
              lazymatch x with
              | context [match _ with _ => _ end] => fail
              | _ => destruct x eqn:?
              end
          end); simpl.

Lemma auth_call_one_post (env : Env) (endpoint what fallback : string)
    (api_key email password : string) (world : World) :
  calls (snd (auth_call env endpoint what fallback api_key email password world))
  = (calls world ++ [HttpPost (auth_request endpoint api_key email password)])%list
  /\ session (snd (auth_call env endpoint what fallback api_key email
                             password world))
     = session world.
Proof.
  destruct world as [s u c].
  unfold auth_call, auth_request, post, auth_except, read_local,
    response_json, py_get, bind, record_call, raise, draw, ret.
  split_cases; split; reflexivity.
Qed.

(** X7. [signup_user] and [login_user] send exactly one request to
    their endpoint, carrying the key, the email and the password as
    given, and never write to the session state: this holds whatever the
    provider answers and also when the call ends with an exception (no
    retry, no second request). *)
Theorem auth_functions_post_once (env : Env) (api_key email password : string)
    (world : World) :
  (calls (snd (signup_user env api_key email password world))
   = (calls world ++
       [HttpPost (mkRequest
          ("https://identitytoolkit.googleapis.com/v1/accounts:signUp?key="
             ++ api_key)
          [("Content-Type", "application/json")]
          (JObj [("email", JStr email); ("password", JStr password);
                 ("returnSecureToken", JBool true)]))])%list
   /\ session (snd (signup_user env api_key email password world))
      = session world)
  /\ (calls (snd (login_user env api_key email password world))
      = (calls world ++
          [HttpPost (mkRequest
             ("https://identitytoolkit.googleapis.com/v1/accounts:signInWithPassword?key="
                ++ api_key)
             [("Content-Type", "application/json")]
             (JObj [("email", JStr email); ("password", JStr password);
                    ("returnSecureToken", JBool true)]))])%list
      /\ session (snd (login_user env api_key email password world))
         = session world).
Proof.
  split; [apply (auth_call_one_post env "signUp")
         | apply (auth_call_one_post env "signInWithPassword")].
Qed.

Lemma auth_call_http_error (env : Env) (endpoint what fallback : string)
    (api_key email password : string) (world : World) (r : Response)
    (e : string) :
  requests_post env (auth_request endpoint api_key email password)
  = PostReturns r ->
  raise_for_status r = Some e -> status_code r <> 400 ->
  auth_call env endpoint what fallback api_key email password world
  = (Ok JNull,
     mkWorld (session world)
             (ui world ++ [StError (what ++ " failed: " ++ e)])
             (calls world ++ [HttpPost (auth_request endpoint api_key
                                                     email password)])).
Proof.
  intros Hp Hr Hs. destruct world as [s u c].
  unfold auth_call, post, bind, record_call, ret; simpl.
  unfold auth_request in Hp. rewrite Hp, Hr.
  unfold auth_except, bind, draw, read_local, ret; simpl.
  destruct (Z.eqb_spec (status_code r) 400); [contradiction | reflexivity].
Qed.

(** X8. An error response whose status is not 400 (401, 404, 429, 500,
    ...) makes [signup_user] and [login_user] return None after drawing
    the one "... failed: ..." message: the body of the response is not
    read and no second message is drawn. *)
Theorem other_http_errors_one_message (env : Env)
    (api_key email password : string) (world : World) (r : Response) :
  requests_post env (auth_request "signUp" api_key email password)
  = PostReturns r ->
  requests_post env (auth_request "signInWithPassword" api_key email password)
  = PostReturns r ->
  400 <= status_code r < 600 -> status_code r <> 400 ->
  signup_user env api_key email password world
  = (Ok JNull,
     mkWorld (session world)
             (ui world ++ [StError ("Signup failed: " ++ http_error_text r)])
             (calls world ++ [HttpPost (auth_request "signUp" api_key
                                                     email password)]))
  /\ login_user env api_key email password world
     = (Ok JNull,
        mkWorld (session world)
                (ui world ++ [StError ("Login failed: " ++ http_error_text r)])
                (calls world ++ [HttpPost (auth_request "signInWithPassword"
                                             api_key email password)])).
Proof.
  intros Hs Hl Hrange Hne.
  assert (Hr : raise_for_status r = Some (http_error_text r)).
  { unfold raise_for_status.
    replace (400 <=? status_code r) with true by (symmetry; apply Z.leb_le; lia).
    replace (status_code r <? 600) with true by (symmetry; apply Z.ltb_lt; lia).
    reflexivity. }
  unfold signup_user, login_user.
  now rewrite (auth_call_http_error env _ _ _ _ _ _ world r _ Hs Hr Hne),
              (auth_call_http_error env _ _ _ _ _ _ world r _ Hl Hr Hne).
Qed.

Lemma other_http_errors_one_message_witness :
  signup_user
    (world_answering (mkResponse 503 "503 Server Error" None EmptyString))
    "K" "ada@example.org" "secret1" (mkWorld fresh_session [] [])
  = (Ok JNull,
     mkWorld fresh_session
             ([] ++ [StError ("Signup failed: " ++ "503 Server Error")])
             ([] ++ [HttpPost (auth_request "signUp" "K"
                                            "ada@example.org" "secret1")]))
  /\ login_user
       (world_answering (mkResponse 503 "503 Server Error" None EmptyString))
       "K" "ada@example.org" "secret1" (mkWorld fresh_session [] [])
     = (Ok JNull,
        mkWorld fresh_session
                ([] ++ [StError ("Login failed: " ++ "503 Server Error")])
                ([] ++ [HttpPost (auth_request "signInWithPassword" "K"
                                               "ada@example.org" "secret1")])).
Proof.
  apply (other_http_errors_one_message
           (world_answering (mkResponse 503 "503 Server Error" None EmptyString))
           "K" "ada@example.org" "secret1" (mkWorld fresh_session [] [])
           (mkResponse 503 "503 Server Error" None EmptyString)).
  - reflexivity.
  - reflexivity.
  - simpl; lia.
  - simpl; lia.
Defined.

Lemma dict_get_absent (d : list (string * json)) (key : string) (default : json) :
  ~ In key (map fst d) -> dict_get d key default = default.
Proof.
  induction d as [|[k v] d IH]; simpl; intros H; [reflexivity|].
  destruct (String.eqb_spec k key) as [->|Hne].
  - exfalso; apply H; now left.
  - apply IH. intros Hin; apply H; now right.
Qed.

(** X9. A 400 response whose body is a JSON object without an "error"
    entry, or whose "error" object has no "message" entry, is reported
    with the fixed fallback text: "Unknown Firebase error" for sign-up,
    "Invalid credentials or Firebase error" for login. *)
Theorem rejection_without_message_uses_fallback (env : Env)
    (api_key email password : string) (world : World) (r : Response)
    (d ed : list (string * json)) :
  requests_post env (auth_request "signUp" api_key email password)
  = PostReturns r ->
  requests_post env (auth_request "signInWithPassword" api_key email password)
  = PostReturns r ->
  status_code r = 400 -> body r = Some (JObj d) ->
  (~ In "error" (map fst d)
   \/ (dict_get d "error" (JObj []) = JObj ed /\ ~ In "message" (map fst ed))) ->
  signup_user env api_key email password world
  = (Ok JNull,
     mkWorld (session world)
             (ui world ++ [StError ("Signup failed: " ++ http_error_text r);
                           StError "Error: Unknown Firebase error"])
             (calls world ++ [HttpPost (auth_request "signUp" api_key
                                                     email password)]))
  /\ login_user env api_key email password world
     = (Ok JNull,
        mkWorld (session world)
                (ui world ++ [StError ("Login failed: " ++ http_error_text r);
                              StError "Error: Invalid credentials or Firebase error"])
                (calls world ++ [HttpPost (auth_request "signInWithPassword"
                                             api_key email password)])).
Proof.
  intros Hs Hl Hst Hb Hcase.
  assert (exists ed', dict_get d "error" (JObj []) = JObj ed'
                      /\ ~ In "message" (map fst ed')) as (ed' & He & Hm).
  { destruct Hcase as [Habs | [He Hm]].
    - exists []. split; [now apply dict_get_absent | simpl; tauto].
    - exists ed; now split. }
  unfold signup_user, login_user.
  rewrite (auth_call_rejected env _ _ _ _ _ _ world r d ed' Hs Hst Hb He),
          (auth_call_rejected env _ _ _ _ _ _ world r d ed' Hl Hst Hb He).
  rewrite !(dict_get_absent ed' "message" _ Hm). split; reflexivity.
Qed.

Lemma rejection_without_message_uses_fallback_witness :
  signup_user
    (world_answering (mkResponse 400 "400 Client Error" (Some (JObj [])) EmptyString))
    "K" "ada@example.org" "secret1" (mkWorld fresh_session [] [])
  = (Ok JNull,
     mkWorld fresh_session
             ([] ++ [StError ("Signup failed: " ++ "400 Client Error");
                     StError "Error: Unknown Firebase error"])
             ([] ++ [HttpPost (auth_request "signUp" "K"
                                            "ada@example.org" "secret1")]))
  /\ login_user
       (world_answering (mkResponse 400 "400 Client Error" (Some (JObj [])) EmptyString))
       "K" "ada@example.org" "secret1" (mkWorld fresh_session [] [])
     = (Ok JNull,
        mkWorld fresh_session
                ([] ++ [StError ("Login failed: " ++ "400 Client Error");
                        StError "Error: Invalid credentials or Firebase error"])
                ([] ++ [HttpPost (auth_request "signInWithPassword" "K"
                                               "ada@example.org" "secret1")])).
Proof.
  apply (rejection_without_message_uses_fallback
           (world_answering
              (mkResponse 400 "400 Client Error" (Some (JObj [])) EmptyString))
           "K" "ada@example.org" "secret1" (mkWorld fresh_session [] [])
           (mkResponse 400 "400 Client Error" (Some (JObj [])) EmptyString)
           [] []).
  - reflexivity.
  - reflexivity.
  - reflexivity.
  - reflexivity.
  - left; simpl; tauto.
Defined.

(** X10. A 400 response whose body cannot be read the way the handler
    reads it makes [signup_user] and [login_user] end with an uncaught
    exception after the "... failed: ..." message, instead of returning
    None: a body that is not JSON raises from [response.json()], a JSON
    value that is not an object, or an "error" entry that is not an
    object, raises from [.get]. *)
Theorem malformed_rejection_escapes (env : Env)
    (api_key email password : string) (world : World) (r : Response) :
  requests_post env (auth_request "signUp" api_key email password)
  = PostReturns r ->
  requests_post env (auth_request "signInWithPassword" api_key email password)
  = PostReturns r ->
  status_code r = 400 ->
  (body r = None
   \/ (exists j, body r = Some j /\ is_dict j = false)
   \/ (exists d, body r = Some (JObj d)
                 /\ is_dict (dict_get d "error" (JObj [])) = false)) ->
  exists e,
    (e = JSONDecodeError \/ e = AttributeError "get")
    /\ signup_user env api_key email password world
       = (Abort (Uncaught e),
          mkWorld (session world)
                  (ui world ++ [StError ("Signup failed: " ++ http_error_text r)])
                  (calls world ++ [HttpPost (auth_request "signUp" api_key
                                                          email password)]))
    /\ login_user env api_key email password world
       = (Abort (Uncaught e),
          mkWorld (session world)
                  (ui world ++ [StError ("Login failed: " ++ http_error_text r)])
                  (calls world ++ [HttpPost (auth_request "signInWithPassword"
                                               api_key email password)])).
Proof.
  intros Hs Hl Hst Hcase. destruct world as [s u c].
  unfold signup_user, login_user, auth_call, post, bind, record_call, ret;
    simpl.
  unfold auth_request in Hs, Hl. rewrite Hs, Hl.
  unfold raise_for_status. rewrite Hst; simpl.
  unfold auth_except, bind, draw, read_local, ret, response_json; simpl.
  rewrite Hst; simpl.
  destruct Hcase as [Hb | [(j & Hb & Hj) | (d & Hb & Hd)]]; rewrite Hb; simpl.
  - exists JSONDecodeError; auto.
  - exists (AttributeError "get").
    destruct j; try discriminate Hj; simpl; auto.
  - exists (AttributeError "get").
    destruct (dict_get d "error" (JObj [])); try discriminate Hd; simpl; auto.
Qed.

Lemma malformed_rejection_escapes_witness :
  exists e,
    (e = JSONDecodeError \/ e = AttributeError "get")
    /\ signup_user
         (world_answering (mkResponse 400 "400 Client Error" None "Expecting value"))
         "K" "ada@example.org" "secret1" (mkWorld fresh_session [] [])
       = (Abort (Uncaught e),
          mkWorld fresh_session
                  ([] ++ [StError ("Signup failed: " ++ "400 Client Error")])
                  ([] ++ [HttpPost (auth_request "signUp" "K"
                                                 "ada@example.org" "secret1")]))
    /\ login_user
         (world_answering (mkResponse 400 "400 Client Error" None "Expecting value"))
         "K" "ada@example.org" "secret1" (mkWorld fresh_session [] [])
       = (Abort (Uncaught e),
          mkWorld fresh_session
                  ([] ++ [StError ("Login failed: " ++ "400 Client Error")])
                  ([] ++ [HttpPost (auth_request "signInWithPassword" "K"
                                                 "ada@example.org" "secret1")])).
Proof.
  apply (malformed_rejection_escapes
           (world_answering
              (mkResponse 400 "400 Client Error" None "Expecting value"))
           "K" "ada@example.org" "secret1" (mkWorld fresh_session [] [])
           (mkResponse 400 "400 Client Error" None "Expecting value")).
  - reflexivity.
  - reflexivity.
  - reflexivity.
  - left; reflexivity.
Defined.

(** ** The two forms of the login page *)

(** X11. A login submitted with an empty email or an empty password
    draws the warning "Please enter both email and password.", calls
    nobody and leaves the session as it was. *)
Theorem login_needs_both_fields (env : Env) (api_key : string) (w : Widgets)
    (world : World) :
  login_button w = true ->
  login_email w = EmptyString \/ login_password w = EmptyString ->
  login_form env api_key w world
  = (Ok tt,
     mkWorld (session world)
             (ui world ++ [StWarning "Please enter both email and password."])
             (calls world)).
Proof.
  intros Hb Hcase. unfold login_form, when. rewrite Hb.
  destruct Hcase as [H | H]; rewrite (str_truthy_false _ H);
    rewrite ?andb_false_r; reflexivity.
Qed.

Lemma login_needs_both_fields_witness :
  login_form world_up "K" (press_login "ada@example.org" EmptyString)
             (mkWorld fresh_session [] [])
  = (Ok tt,
     mkWorld fresh_session
             ([] ++ [StWarning "Please enter both email and password."]) []).
Proof.
  apply (login_needs_both_fields world_up "K"
           (press_login "ada@example.org" EmptyString)
           (mkWorld fresh_session [] [])).
  - reflexivity.
  - right; reflexivity.
Defined.

(** X12. The registration form calls sign-up exactly when Register is
    pressed, the three fields are non-empty, the confirmation equals the
    password and the password has at least 6 characters (6 is enough):
    then it sends the one sign-up request, whatever comes back;
    otherwise it sends nothing. *)
Theorem signup_called_exactly_when_valid (env : Env) (api_key : string)
    (w : Widgets) (world : World) :
  let valid :=
    register_button w = true
    /\ register_email w <> EmptyString
    /\ register_password w <> EmptyString
    /\ confirm_password w = register_password w
    /\ (6 <= py_len (register_password w))%nat in
  (valid ->
   calls (snd (register_form env api_key w world))
   = (calls world ++ [HttpPost (auth_request "signUp" api_key
                                  (register_email w) (register_password w))])%list)
  /\ (~ valid ->
      calls (snd (register_form env api_key w world)) = calls world).
Proof.
  intros valid; subst valid. split.
  - intros (Hb & He & Hp & Hc & Hlen).
    unfold register_form, when, signup_user, bind.
    rewrite Hb, Hc, (str_truthy_true _ He), (str_truthy_true _ Hp); simpl.
    rewrite String.eqb_refl.
    replace (6 <=? Z.of_nat (py_len (register_password w))) with true
      by (symmetry; apply Z.leb_le; lia).
    pose proof (auth_call_one_post env "signUp" "Signup"
                  "Unknown Firebase error" api_key (register_email w)
                  (register_password w) world) as [Hcalls _].
    destruct (auth_call env "signUp" "Signup" "Unknown Firebase error" api_key
                (register_email w) (register_password w) world)
      as [[j|sg] w1]; simpl in *; [|exact Hcalls].
    destruct (py_truthy j); simpl; exact Hcalls.
  - intros Hnot. unfold register_form, when.
    destruct (register_button w) eqn:Hb; [|reflexivity].
    destruct (str_truthy (register_email w)) eqn:He; [|reflexivity].
    destruct (str_truthy (register_password w)) eqn:Hp; [|reflexivity].
    destruct (str_truthy (confirm_password w)) eqn:Hcf; [|reflexivity].
    simpl.
    destruct (String.eqb_spec (register_password w) (confirm_password w))
      as [Heq|Hneq]; [|reflexivity].
    destruct (6 <=? Z.of_nat (py_len (register_password w))) eqn:Hlen;
      [|reflexivity].
    exfalso. apply Hnot. apply Z.leb_le in Hlen.
    repeat split; try lia; try congruence.
    + intros E; rewrite (str_truthy_false _ E) in He; discriminate.
    + intros E; rewrite (str_truthy_false _ E) in Hp; discriminate.
Qed.

Lemma signup_called_exactly_when_valid_witness :
  calls (snd (register_form world_up "K"
                (press_register "ada@example.org" "secret" "secret")
                (mkWorld fresh_session [] [])))
  = ([] ++ [HttpPost (auth_request "signUp" "K" "ada@example.org" "secret")])%list.
Proof.
  apply (proj1 (signup_called_exactly_when_valid world_up "K"
                  (press_register "ada@example.org" "secret" "secret")
                  (mkWorld fresh_session [] []))).
  repeat split; try discriminate; simpl; lia.
Defined.

(** X13. When the provider answers without error but the decoded body is
    falsy (an empty object, null, ...), nothing tells the user: the
    login form draws nothing, does not log in and does not rerun, and
    the registration form draws no success notice. *)
Theorem empty_account_is_silent (env : Env) (api_key : string) (w : Widgets)
    (world : World) (r : Response) (j : json) :
  (forall rq, requests_post env rq = PostReturns r) ->
  raise_for_status r = None -> body r = Some j -> py_truthy j = false ->
  (login_button w = true ->
   login_email w <> EmptyString -> login_password w <> EmptyString ->
   login_form env api_key w world
   = (Ok tt,
      mkWorld (session world) (ui world)
              (calls world ++
                 [HttpPost (auth_request "signInWithPassword" api_key
                              (login_email w) (login_password w))])))
  /\ (register_button w = true ->
      register_email w <> EmptyString -> register_password w <> EmptyString ->
      confirm_password w = register_password w ->
      (6 <= py_len (register_password w))%nat ->
      register_form env api_key w world
      = (Ok tt,
         mkWorld (session world) (ui world)
                 (calls world ++
                    [HttpPost (auth_request "signUp" api_key
                                 (register_email w) (register_password w))]))).
Proof.
  intros Hpost Hs Hb Hf. split.
  - intros Hbtn He Hp. unfold login_form, when, login_user, bind.
    rewrite Hbtn, (str_truthy_true _ He), (str_truthy_true _ Hp); simpl.
    rewrite (auth_call_success env _ _ _ _ _ _ world r j (Hpost _) Hs Hb).
    now rewrite Hf.
  - intros Hbtn He Hp Hc Hlen. unfold register_form, when, signup_user, bind.
    rewrite Hbtn, Hc, (str_truthy_true _ He), (str_truthy_true _ Hp); simpl.
    rewrite String.eqb_refl.
    replace (6 <=? Z.of_nat (py_len (register_password w))) with true
      by (symmetry; apply Z.leb_le; lia).
    rewrite (auth_call_success env _ _ _ _ _ _ world r j (Hpost _) Hs Hb).
    now rewrite Hf.
Qed.

Lemma empty_account_is_silent_witness :
  login_form
    (world_answering (mkResponse 200 EmptyString (Some (JObj [])) EmptyString))
    "K" (press_login "ada@example.org" "secret1") (mkWorld fresh_session [] [])
  = (Ok tt,
     mkWorld fresh_session []
             ([] ++ [HttpPost (auth_request "signInWithPassword" "K"
                                 "ada@example.org" "secret1")])).
Proof.
  apply (proj1 (empty_account_is_silent
                  (world_answering
                     (mkResponse 200 EmptyString (Some (JObj [])) EmptyString))
                  "K" (press_login "ada@example.org" "secret1")
                  (mkWorld fresh_session [] [])
                  (mkResponse 200 EmptyString (Some (JObj [])) EmptyString)
                  (JObj [])
                  (fun _ => eq_refl) eq_refl eq_refl eq_refl)).
  - reflexivity.
  - discriminate.
  - discriminate.
Defined.

(** ** What every run of the page keeps *)

Section Keeps.
Variable J : SessionState -> list Call -> Prop.

Lemma keeps_ret {A : Type} (a : A) : keeps J (ret a).
Proof. intros w H; exact H. Qed.

Lemma keeps_bind {A B : Type} (m : M A) (k : A -> M B) :
  keeps J m -> (forall a, keeps J (k a)) -> keeps J (bind m k).
Proof.
  intros Hm Hk w H. unfold bind. specialize (Hm w H).
  destruct (m w) as [[a|sg] w']; simpl in *; [now apply Hk | exact Hm].
Qed.

Lemma keeps_draw (e : UiEvent) : keeps J (draw e).
Proof. intros w H; exact H. Qed.

Lemma keeps_get_session : keeps J get_session.
Proof. intros w H; exact H. Qed.

Lemma keeps_raise {A : Type} (e : exn) : keeps J (@raise A e).
Proof. intros w H; exact H. Qed.

Lemma keeps_rerun {A : Type} : keeps J (@st_rerun A).
Proof. intros w H; exact H. Qed.

Lemma keeps_when (b : bool) (m : M unit) :
  (b = true -> keeps J m) -> keeps J (when b m).
Proof. destruct b; intros H; [now apply H | apply keeps_ret]. Qed.

Lemma keeps_read_attr {A : Type} (name : string) (v : option A) :
  keeps J (read_attr name v).
Proof. destruct v; [apply keeps_ret | apply keeps_raise]. Qed.

Lemma keeps_py_get (v : json) (key : string) (default : json) :
  keeps J (py_get v key default).
Proof. destruct v; first [apply keeps_ret | apply keeps_raise]. Qed.

Lemma keeps_render_history (l : list Message) : keeps J (render_history l).
Proof. intros w H. rewrite render_history_run. exact H. Qed.
End Keeps.

Create HintDb keeps_db.
#[local] Hint Resolve keeps_ret keeps_draw keeps_get_session keeps_raise
  keeps_rerun keeps_read_attr keeps_py_get keeps_render_history : keeps_db.

Ltac keeps_step :=
  match goal with
  | |- keeps _ (bind _ _) => apply keeps_bind; [|intros ?]
  | |- keeps _ (when _ _) => apply keeps_when; intros ?
  | |- keeps _ _ => solve [auto with keeps_db]
  | |- keeps _ (match ?x with _ => _ end) => destruct x eqn:?
  end.

(** The session part of a property is kept by whatever leaves the session
    alone. *)
Lemma keeps_session_only (I : SessionState -> Prop) {A : Type} (m : M A) :
  (forall w, session (snd (m w)) = session w) ->
  keeps (fun s _ => I s) m.
Proof. intros H w Hi. now rewrite H. Qed.

(** *** The login flag comes with an account *)

Lemma consistent_set_messages (l : list Message) :
  keeps (fun s _ => consistent s) (set_messages l).
Proof. intros [[li ui0 ms] u c] H; exact H. Qed.

Lemma consistent_append_message (m : Message) :
  keeps (fun s _ => consistent s) (append_message m).
Proof. intros [[li ui0 [l|]] u c] H; exact H. Qed.

Lemma consistent_logout_user :
  keeps (fun s _ => consistent s) logout_user.
Proof. intros [[li ui0 ms] u c] _ Hli; discriminate Hli. Qed.

Lemma consistent_record_call (c : Call) :
  keeps (fun s _ => consistent s) (record_call c).
Proof. intros w H; exact H. Qed.

Lemma consistent_auth_call (env : Env) (endpoint what fallback : string)
    (api_key email password : string) :
  keeps (fun s _ => consistent s)
        (auth_call env endpoint what fallback api_key email password).
Proof.
  apply keeps_session_only. intros w.
  apply (auth_call_one_post env endpoint what fallback api_key email
                            password w).
Qed.

Lemma consistent_login_form (env : Env) (api_key : string) (w : Widgets) :
  keeps (fun s _ => consistent s) (login_form env api_key w).
Proof.
  unfold login_form, login_user.
  apply keeps_when; intros _.
  destruct (str_truthy (login_email w) && str_truthy (login_password w));
    [|apply keeps_draw].
  apply keeps_bind; [apply consistent_auth_call | intros user_data].
  destruct (py_truthy user_data) eqn:Ht; [|apply keeps_ret].
  intros [[li ui0 ms] u c] _ _. exists user_data. now split.
Qed.

Lemma consistent_init_login_state :
  keeps (fun s _ => consistent s) init_login_state.
Proof.
  intros [[[b|] [v|] ms] u c] H; simpl; try exact H; intros E;
    try discriminate E.
  destruct (H E) as (v & Hv & _). discriminate Hv.
Qed.

#[local] Hint Resolve consistent_set_messages consistent_append_message
  consistent_logout_user consistent_record_call consistent_auth_call
  consistent_login_form consistent_init_login_state : keeps_db.

Lemma consistent_app (env : Env) (api_key : string) (w : Widgets) :
  keeps (fun s _ => consistent s) (app env api_key w).
Proof.
  unfold app, translator_view, auth_view, register_form, signup_user,
    init_messages, on_chat_input, clear_chat.
  repeat keeps_step.
Qed.

(** X14. [logged_in] is never true without a truthy account record in
    [user_info]: every run of the page keeps this, however the run ends
    (normally, by a rerun or by an exception), so it holds after any
    succession of runs that starts from an empty session state. *)
Theorem login_flag_comes_with_account (api_key : string) :
  (forall (env : Env) (w : Widgets) (s : SessionState),
     consistent s -> consistent (session (snd (run_app env api_key w s))))
  /\ (forall steps : list (Env * Widgets),
        consistent (run_all api_key steps fresh_session)).
Proof.
  assert (Hrun : forall (env : Env) (w : Widgets) (s : SessionState),
     consistent s -> consistent (session (snd (run_app env api_key w s)))).
  { intros env w s Hs. unfold run_app.
    apply (consistent_app env api_key w (mkWorld s [] [])). exact Hs. }
  split; [exact Hrun|].
  assert (Hall : forall steps s, consistent s ->
                                 consistent (run_all api_key steps s)).
  { induction steps as [|[env w] rest IH]; intros s Hs; simpl;
      [exact Hs | apply IH, Hrun, Hs]. }
  intros steps. apply Hall. intros E; discriminate E.
Qed.

(** *** Every user turn has its assistant turn *)

Lemma answered_app (l1 l2 : list Message) :
  forall pending : bool,
    answered pending l1 = true ->
    answered pending (l1 ++ l2) = answered false l2.
Proof.
  induction l1 as [|m l1 IH]; intros pending H; simpl in *.
  - destruct pending; [discriminate H | reflexivity].
  - destruct pending.
    + apply andb_true_iff in H as [Hr Hl]. rewrite Hr; simpl. now apply IH.
    + now apply IH.
Qed.

Lemma answered_set_logged_in (b : bool) :
  keeps (fun s _ => transcript_answered s) (set_logged_in b).
Proof. intros [[li ui0 ms] u c] H; exact H. Qed.

Lemma answered_set_user_info (v : json) :
  keeps (fun s _ => transcript_answered s) (set_user_info v).
Proof. intros [[li ui0 ms] u c] H; exact H. Qed.

Lemma answered_logout_user :
  keeps (fun s _ => transcript_answered s) logout_user.
Proof. intros [[li ui0 ms] u c] _; reflexivity. Qed.

Lemma answered_clear_chat :
  keeps (fun s _ => transcript_answered s) clear_chat.
Proof. intros [[li ui0 ms] u c] _; reflexivity. Qed.

Lemma answered_init_messages :
  keeps (fun s _ => transcript_answered s) init_messages.
Proof. intros [[li ui0 [l|]] u c] H; [exact H | reflexivity]. Qed.

Lemma answered_auth_call (env : Env) (endpoint what fallback : string)
    (api_key email password : string) :
  keeps (fun s _ => transcript_answered s)
        (auth_call env endpoint what fallback api_key email password).
Proof.
  apply keeps_session_only. intros w.
  apply (auth_call_one_post env endpoint what fallback api_key email
                            password w).
Qed.

Lemma answered_on_chat_input (env : Env) (source target prompt : string) :
  keeps (fun s _ => transcript_answered s)
        (on_chat_input env source target prompt).
Proof.
  intros [[li ui0 [l|]] u c] H; [|exact I].
  unfold transcript_answered in *; simpl in H.
  unfold on_chat_input, bind; simpl.
  destruct (generate_content env _); simpl;
    rewrite <- app_assoc; simpl; now rewrite (answered_app l _ false H).
Qed.

#[local] Hint Resolve answered_set_logged_in answered_set_user_info
  answered_logout_user answered_clear_chat answered_init_messages
  answered_auth_call answered_on_chat_input : keeps_db.

Lemma answered_app_run (env : Env) (api_key : string) (w : Widgets) :
  keeps (fun s _ => transcript_answered s) (app env api_key w).
Proof.
  unfold app, init_login_state, translator_view, auth_view, login_form,
    register_form, login_user, signup_user.
  repeat keeps_step.
Qed.

(** X15. In the stored transcript every user turn is directly followed
    by an assistant turn (the translation or the recorded error): every
    run of the page keeps this, also a run that combines a submission
    with Clear Chat or Logout, so it holds after any succession of runs
    that starts from an empty session state. *)
Theorem every_user_turn_is_answered (api_key : string) :
  (forall (env : Env) (w : Widgets) (s : SessionState),
     transcript_answered s ->
     transcript_answered (session (snd (run_app env api_key w s))))
  /\ (forall steps : list (Env * Widgets),
        transcript_answered (run_all api_key steps fresh_session)).
Proof.
  assert (Hrun : forall (env : Env) (w : Widgets) (s : SessionState),
     transcript_answered s ->
     transcript_answered (session (snd (run_app env api_key w s)))).
  { intros env w s Hs. unfold run_app.
    apply (answered_app_run env api_key w (mkWorld s [] [])). exact Hs. }
  split; [exact Hrun|].
  assert (Hall : forall steps s, transcript_answered s ->
                                 transcript_answered (run_all api_key steps s)).
  { induction steps as [|[env w] rest IH]; intros s Hs; simpl;
      [exact Hs | apply IH, Hrun, Hs]. }
  intros steps. apply Hall. exact I.
Qed.

(** *** Who is called from which view *)

Lemma posts_only_auth_call (env : Env) (endpoint what fallback : string)
    (api_key email password : string) :
  keeps (fun _ cs => Forall (fun c => is_post c = true) cs)
        (auth_call env endpoint what fallback api_key email password).
Proof.
  intros w H.
  rewrite (proj1 (auth_call_one_post env endpoint what fallback api_key
                                     email password w)).
  apply Forall_app; split; [exact H | repeat constructor].
Qed.

Lemma posts_only_put_session (s : SessionState) :
  keeps (fun _ cs => Forall (fun c => is_post c = true) cs) (put_session s).
Proof. intros w H; exact H. Qed.

Lemma posts_only_auth_view (env : Env) (api_key : string) (w : Widgets) :
  keeps (fun _ cs => Forall (fun c => is_post c = true) cs)
        (auth_view env api_key w).
Proof.
  unfold auth_view, login_form, register_form, login_user, signup_user,
    set_logged_in, set_user_info.
  repeat first [apply posts_only_auth_call | apply posts_only_put_session
               | keeps_step].
Qed.

Lemma model_only_put_session (s : SessionState) :
  keeps (fun _ cs => Forall (fun c => is_post c = false) cs) (put_session s).
Proof. intros w H; exact H. Qed.

Lemma model_only_record (prompt : string) :
  keeps (fun _ cs => Forall (fun c => is_post c = false) cs)
        (record_call (GenerateContent prompt)).
Proof.
  intros w H; simpl. apply Forall_app; split; [exact H | repeat constructor].
Qed.

Lemma model_only_translator_view (env : Env) (w : Widgets) :
  keeps (fun _ cs => Forall (fun c => is_post c = false) cs)
        (translator_view env w).
Proof.
  unfold translator_view, logout_user, init_messages, on_chat_input,
    clear_chat, append_message, set_messages.
  repeat first [apply model_only_record | apply model_only_put_session
               | keeps_step].
Qed.

(** X16. A run of the page in the logged-in state never sends a request
    to the identity provider, and a run in the logged-out state never
    calls the model: this holds for every widget input and however the
    run ends. *)
Theorem views_call_their_own_service (env : Env) (api_key : string)
    (w : Widgets) (s : SessionState) :
  (logged_in s = Some true ->
   Forall (fun c => is_post c = false) (calls (snd (run_app env api_key w s))))
  /\ (logged_in s <> Some true ->
      Forall (fun c => is_post c = true) (calls (snd (run_app env api_key w s)))).
Proof.
  split.
  - intros Hli.
    pose proof (fun W => model_only_translator_view env w W) as Htv.
    destruct s as [li [v|] ms]; simpl in Hli; subst;
      unfold run_app, app, init_login_state, bind; simpl.
    + specialize (Htv (mkWorld (mkSession (Some true) (Some v) ms) [] [])
                      ltac:(constructor)).
      destruct (translator_view env w _) as [[[]|sg] w1]; simpl in *; exact Htv.
    + constructor.
  - intros Hli.
    pose proof (fun W => posts_only_auth_view env api_key w W) as Hav.
    destruct s as [[[|]|] [v|] ms]; simpl in Hli; try congruence;
      unfold run_app, app, init_login_state, bind; simpl;
      match goal with
      | |- context [auth_view env api_key w ?W] =>
          specialize (Hav W ltac:(constructor));
          destruct (auth_view env api_key w W) as [[[]|sg] w1];
          simpl in *; exact Hav
      end.
Qed.

Lemma views_call_their_own_service_witness :
  Forall (fun c => is_post c = false)
         (calls (snd (run_app world_up "K" (submit hello) signed_in))).
Proof.
  apply (proj1 (views_call_their_own_service world_up "K" (submit hello)
                  signed_in)).
  reflexivity.
Defined.

(** ** Runs of the translator view *)

(** X17. In the logged-in state the model is called exactly when Logout
    is not pressed and the chat input holds a non-empty text: then the
    run makes the one call with the prompt built from the selected
    languages and that text (also when Clear Chat is pressed in the same
    run); otherwise the run makes no outside call at all. *)
Theorem model_called_exactly_on_submission (env : Env) (api_key : string)
    (w : Widgets) (s : SessionState) :
  authenticated s ->
  (forall p : string,
     logout_button w = false -> chat_input_text w = Some p ->
     p <> EmptyString ->
     calls (snd (run_app env api_key w s))
     = [GenerateContent (translation_prompt (source_lang_select w)
                                            (target_lang_select w) p)])
  /\ (logout_button w = true \/ chat_input_text w = None
      \/ chat_input_text w = Some EmptyString ->
      calls (snd (run_app env api_key w s)) = []).
Proof.
  intros [Hli [d Hui]]. destruct s as [li ui0 ms]; simpl in *; subst.
  split.
  - intros p Hlo Hc Hp.
    unfold run_app, app, init_login_state, translator_view, init_messages,
      bind; simpl.
    rewrite Hlo, Hc; simpl. rewrite (str_truthy_true _ Hp).
    destruct ms as [l|]; simpl; rewrite ?render_history_run; simpl;
      unfold on_chat_input, bind; simpl;
      destruct (generate_content env _); simpl;
      destruct (clear_button w); reflexivity.
  - intros Hcase.
    unfold run_app, app, init_login_state, translator_view, init_messages,
      bind; simpl.
    destruct (logout_button w) eqn:Hlo; [reflexivity|].
    destruct Hcase as [H | [H | H]]; [discriminate H | |]; rewrite H; simpl;
      destruct ms as [l|]; simpl; rewrite ?render_history_run; simpl;
      destruct (clear_button w); reflexivity.
Qed.

Lemma model_called_exactly_on_submission_witness :
  (forall p : string,
     logout_button (submit hello) = false ->
     chat_input_text (submit hello) = Some p ->
     p <> EmptyString ->
     calls (snd (run_app world_up "K" (submit hello) signed_in))
     = [GenerateContent (translation_prompt (source_lang_select (submit hello))
                                            (target_lang_select (submit hello)) p)])
  /\ (logout_button (submit hello) = true
      \/ chat_input_text (submit hello) = None
      \/ chat_input_text (submit hello) = Some EmptyString ->
      calls (snd (run_app world_up "K" (submit hello) signed_in)) = []).
Proof.
  apply (model_called_exactly_on_submission world_up "K" (submit hello)
           signed_in).
  split; [reflexivity | eexists; reflexivity].
Defined.

(** X18. Logout comes first: in the logged-in state, a run with Logout
    pressed ends right after the welcome line with a rerun and the
    reset session, whatever else the widgets hold; a text typed in the
    chat input is neither sent to the model nor stored.  The rerun then
    draws the login page. *)
Theorem logout_discards_pending_input (env : Env) (api_key : string)
    (w : Widgets) (s : SessionState) (d : list (string * json)) :
  logged_in s = Some true -> user_info s = Some (JObj d) ->
  logout_button w = true ->
  run_app env api_key w s
  = (Abort Rerun,
     mkWorld logged_out
             [SidebarTitle ("Welcome, "
                              ++ py_str env (dict_get d "email" (JStr "User"))
                              ++ "!")]
             [])
  /\ exists w2,
       interact env api_key w s = (Ok tt, w2)
       /\ session w2 = logged_out
       /\ calls w2 = []
       /\ hd_error (ui w2) = Some (StTitle "Welcome to the AI Language Translator!").
Proof.
  intros Hli Hui Hlo. destruct s as [li ui0 ms]; simpl in *; subst.
  unfold interact, run_app, app, init_login_state, translator_view, bind;
    simpl.
  rewrite Hlo; simpl. split; [reflexivity|].
  eexists; repeat split.
Qed.

Lemma logout_discards_pending_input_witness :
  run_app world_up "K"
    (mkWidgets true "English" "Hindi" (Some "Hello") true
               EmptyString EmptyString false
               EmptyString EmptyString EmptyString false)
    signed_in
  = (Abort Rerun,
     mkWorld logged_out
             [SidebarTitle ("Welcome, "
                ++ py_str world_up
                     (dict_get [("email", JStr "ada@example.org");
                                ("idToken", JStr "tok"); ("localId", JStr "u1")]
                               "email" (JStr "User"))
                ++ "!")]
             [])
  /\ exists w2,
       interact world_up "K"
         (mkWidgets true "English" "Hindi" (Some "Hello") true
                    EmptyString EmptyString false
                    EmptyString EmptyString EmptyString false)
         signed_in = (Ok tt, w2)
       /\ session w2 = logged_out
       /\ calls w2 = []
       /\ hd_error (ui w2) = Some (StTitle "Welcome to the AI Language Translator!").
Proof.
  apply (logout_discards_pending_input world_up "K"
           (mkWidgets true "English" "Hindi" (Some "Hello") true
                      EmptyString EmptyString false
                      EmptyString EmptyString EmptyString false)
           signed_in).
  - reflexivity.
  - reflexivity.
  - reflexivity.
Defined.

(** X19. A run in which nothing is pressed and nothing is submitted only
    redraws: once the session keys exist, it ends normally, makes no
    outside call and leaves the session state exactly as it was, in the
    logged-in state as in the logged-out state. *)
Theorem redraw_changes_nothing (env : Env) (api_key : string) (w : Widgets)
    (s : SessionState) :
  (authenticated s /\ (exists l, messages s = Some l))
  \/ (logged_in s = Some false /\ exists v, user_info s = Some v) ->
  fst (run_app env api_key (idle w) s) = Ok tt
  /\ session (snd (run_app env api_key (idle w) s)) = s
  /\ calls (snd (run_app env api_key (idle w) s)) = [].
Proof.
  intros [[[Hli [d Hui]] [l Hm]] | [Hli [v Hui]]];
    destruct s as [li ui0 ms]; simpl in *; subst;
    unfold run_app, app, init_login_state, translator_view, init_messages,
      auth_view, login_form, register_form, bind; simpl;
    rewrite ?render_history_run; simpl; repeat split.
Qed.

Lemma redraw_changes_nothing_witness :
  fst (run_app world_offline "K" (idle press_clear) signed_in) = Ok tt
  /\ session (snd (run_app world_offline "K" (idle press_clear) signed_in))
     = signed_in
  /\ calls (snd (run_app world_offline "K" (idle press_clear) signed_in)) = [].
Proof.
  apply (redraw_changes_nothing world_offline "K" press_clear signed_in).
  left. split; [split; [reflexivity | eexists; reflexivity]
               | eexists; reflexivity].
Defined.

(** X20. An empty text in the chat input is no submission: the run is in
    every respect (outcome, session, page, outside calls) the run with
    nothing typed. *)
Theorem empty_text_is_no_submission (env : Env) (api_key : string)
    (w : Widgets) (s : SessionState) :
  chat_input_text w = Some EmptyString ->
  run_app env api_key w s = run_app env api_key (without_chat w) s.
Proof.
  intros H.
  unfold run_app, app, translator_view, auth_view, login_form, register_form.
  simpl. rewrite H. reflexivity.
Qed.

Lemma empty_text_is_no_submission_witness :
  run_app world_up "K"
    (mkWidgets false "English" "Hindi" (Some EmptyString) false
               EmptyString EmptyString false
               EmptyString EmptyString EmptyString false)
    signed_in
  = run_app world_up "K"
      (without_chat
         (mkWidgets false "English" "Hindi" (Some EmptyString) false
                    EmptyString EmptyString false
                    EmptyString EmptyString EmptyString false))
      signed_in.
Proof.
  apply (empty_text_is_no_submission world_up "K"
           (mkWidgets false "English" "Hindi" (Some EmptyString) false
                      EmptyString EmptyString false
                      EmptyString EmptyString EmptyString false)
           signed_in).
  reflexivity.
Defined.

(** ** After a login *)

(** X21. A successful login stores the whole decoded body as the account
    record, and the translator view that the rerun draws opens with
    "Welcome, <email>!" for the "email" entry of that record, or with
    "Welcome, User!" when the record has no such entry. *)
Theorem login_welcomes_by_email (env : Env) (api_key : string) (w : Widgets)
    (r : Response) (d : list (string * json)) (s : SessionState) :
  login_button w = true ->
  login_email w <> EmptyString -> login_password w <> EmptyString ->
  requests_post env (auth_request "signInWithPassword" api_key
                                  (login_email w) (login_password w))
  = PostReturns r ->
  raise_for_status r = None -> body r = Some (JObj d) -> d <> [] ->
  logged_in s = None \/ logged_in s = Some false ->
  exists w2,
    interact env api_key w s = (Ok tt, w2)
    /\ user_info (session w2) = Some (JObj d)
    /\ hd_error (ui w2)
       = Some (SidebarTitle
                 ("Welcome, " ++ py_str env (dict_get d "email" (JStr "User"))
                    ++ "!"))
    /\ (forall e, dict_get d "email" (JStr "User") = JStr e ->
                  hd_error (ui w2) = Some (SidebarTitle ("Welcome, " ++ e ++ "!")))
    /\ (~ In "email" (map fst d) ->
        hd_error (ui w2) = Some (SidebarTitle "Welcome, User!")).
Proof.
  intros Hb He Hp Hpost Hs Hbody Hd Hli.
  destruct s as [li ui0 ms]; simpl in *.
  assert (Ht : py_truthy (JObj d) = true)
    by (destruct d; [contradiction | reflexivity]).
  unfold interact, run_app, app, init_login_state, auth_view, login_form,
    login_user, bind, when.
  rewrite Hb, (str_truthy_true _ He), (str_truthy_true _ Hp).
  destruct Hli as [-> | ->], ui0 as [v|]; simpl;
    rewrite (auth_call_success env _ _ _ _ _ _ _ r (JObj d) Hpost Hs Hbody);
    rewrite Ht; simpl;
    unfold translator_view, init_messages, bind; simpl;
    destruct ms as [l|]; simpl;
    rewrite ?render_history_run; simpl;
    (eexists; split; [reflexivity|]); simpl;
    (split; [reflexivity|]); (split; [reflexivity|]);
    (split; [intros e ->; reflexivity
            | intros Habs; now rewrite (dict_get_absent d "email" _ Habs)]).
Qed.

Lemma login_welcomes_by_email_witness :
  exists w2,
    interact world_up "K" (press_login "ada@example.org" "secret1")
             fresh_session = (Ok tt, w2)
    /\ user_info (session w2)
       = Some (JObj [("email", JStr "ada@example.org");
                     ("idToken", JStr "tok"); ("localId", JStr "u1")])
    /\ hd_error (ui w2)
       = Some (SidebarTitle
                 ("Welcome, "
                    ++ py_str world_up
                         (dict_get [("email", JStr "ada@example.org");
                                    ("idToken", JStr "tok");
                                    ("localId", JStr "u1")]
                                   "email" (JStr "User"))
                    ++ "!"))
    /\ (forall e,
          dict_get [("email", JStr "ada@example.org");
                    ("idToken", JStr "tok"); ("localId", JStr "u1")]
                   "email" (JStr "User") = JStr e ->
          hd_error (ui w2) = Some (SidebarTitle ("Welcome, " ++ e ++ "!")))
    /\ (~ In "email" (map fst [("email", JStr "ada@example.org");
                                ("idToken", JStr "tok");
                                ("localId", JStr "u1")]) ->
        hd_error (ui w2) = Some (SidebarTitle "Welcome, User!")).
Proof.
  apply (login_welcomes_by_email world_up "K"
           (press_login "ada@example.org" "secret1")
           (mkResponse 200 EmptyString (Some account) EmptyString)
           [("email", JStr "ada@example.org"); ("idToken", JStr "tok");
            ("localId", JStr "u1")]
           fresh_session).
  - reflexivity.
  - discriminate.
  - discriminate.
  - reflexivity.
  - reflexivity.
  - reflexivity.
  - discriminate.
  - left; reflexivity.
Defined.

(** X22. The translator view reads the welcome name from the account
    record before it draws anything, the Logout button included: with
    the login flag set and an account record that is not a dict, every
    run ends at once with an uncaught AttributeError, draws nothing and
    changes nothing, so the session cannot even be logged out. *)
Theorem account_must_be_a_dict (env : Env) (api_key : string) (w : Widgets)
    (s : SessionState) (j : json) :
  logged_in s = Some true -> user_info s = Some j -> is_dict j = false ->
  run_app env api_key w s
  = (Abort (Uncaught (AttributeError "get")), mkWorld s [] []).
Proof.
  intros Hli Hui Hj. destruct s as [li ui0 ms]; simpl in *; subst.
  unfold run_app, app, init_login_state, translator_view, bind; simpl.
  destruct j; try discriminate Hj; reflexivity.
Qed.

Lemma account_must_be_a_dict_witness :
  run_app world_up "K" press_logout
          (mkSession (Some true) (Some (JArr [JStr "tok"])) (Some []))
  = (Abort (Uncaught (AttributeError "get")),
     mkWorld (mkSession (Some true) (Some (JArr [JStr "tok"])) (Some []))
             [] []).
Proof.
  apply (account_must_be_a_dict world_up "K" press_logout
           (mkSession (Some true) (Some (JArr [JStr "tok"])) (Some []))
           (JArr [JStr "tok"])).
  - reflexivity.
  - reflexivity.
  - reflexivity.
Defined.

(** ** What is drawn at once and what is drawn again *)

(** X23. When the model answers, the two chat blocks a submission draws
    at once, after the history, are the blocks the history loop draws for
    the two stored turns in the next run; the rest of the page is the
    same.  When the model fails, the failure is drawn at once as an error
    and an info notice, not as a chat block, while the next run draws it
    as the assistant block "Error: ...". *)
Theorem drawn_again_as_stored (env : Env) (api_key : string)
    (sub : Submission) (s : SessionState) (l : list Message) :
  authenticated s -> messages s = Some l -> sub_text sub <> EmptyString ->
  let asked :=
    ChatMessage "user" [from_to (sub_source sub) (sub_target sub); sub_text sub] in
  let busy :=
    Spinner ("Translating from " ++ sub_source sub ++ " to "
               ++ sub_target sub ++ "...") in
  exists w1 w2 top bottom,
    run_app env api_key (submit sub) s = (Ok tt, w1)
    /\ run_app env api_key (idle (submit sub)) (session w1) = (Ok tt, w2)
    /\ ui w2 = (top ++ map render_message l
                    ++ map render_message (turns (env, sub)) ++ bottom)%list
    /\ (forall t,
          generate_content env
            (translation_prompt (sub_source sub) (sub_target sub) (sub_text sub))
          = GenText t ->
          map render_message (turns (env, sub))
          = [asked; ChatMessage "assistant" [t]]
          /\ ui w1 = (top ++ map render_message l
                          ++ [asked; busy; ChatMessage "assistant" [t]]
                          ++ bottom)%list)
    /\ (forall e,
          generate_content env
            (translation_prompt (sub_source sub) (sub_target sub) (sub_text sub))
          = GenRaises e ->
          let text := "An error occurred during translation: " ++ e in
          map render_message (turns (env, sub))
          = [asked; ChatMessage "assistant" ["Error: " ++ text]]
          /\ ui w1 = (top ++ map render_message l
                          ++ [asked; busy; StError text;
                              StInfo "Please try again or check your API key/network connection. Quota limits might also apply."]
                          ++ bottom)%list).
Proof.
  intros [Hli [d Hui]] Hm Ht asked busy.
  destruct s as [li ui0 ms]; simpl in *; subst.
  unfold run_app, app, init_login_state, translator_view, init_messages, bind;
    simpl.
  rewrite render_history_run; simpl. rewrite (str_truthy_true _ Ht); simpl.
  unfold on_chat_input, reply, turns, bind; simpl.
  destruct (generate_content env _) as [t|e] eqn:G; simpl;
    eexists; eexists;
    exists [SidebarTitle ("Welcome, "
                            ++ py_str env (dict_get d "email" (JStr "User"))
                            ++ "!");
            StTitle "🗣️ AI Language Translator";
            StMarkdown "Powered by Google Gemini API";
            SidebarSubheader "Language Settings";
            SidebarMarkdown "---"],
           [StMarkdown "---";
            StCaption "Disclaimer: Translations are generated by AI and may not always be perfectly accurate. This is a demo app.";
            StMarkdown "---";
            StCaption "Developed with Streamlit, Google Gemini, and Firebase."];
    (split; [reflexivity|]); simpl; rewrite render_history_run; simpl;
    (split; [reflexivity|]); simpl;
    rewrite ?map_app, <- ?app_assoc; simpl;
    (split; [reflexivity|]);
    (split; [intros t' E | intros e' E]);
    first [discriminate E | injection E as <-; split; reflexivity].
Qed.

Lemma drawn_again_as_stored_witness :
  let asked := ChatMessage "user" [from_to "English" "Spanish"; "Hello"] in
  let busy :=
    Spinner ("Translating from " ++ "English" ++ " to " ++ "Spanish" ++ "...") in
  exists w1 w2 top bottom,
    run_app world_rejecting "K" (submit hello) signed_in = (Ok tt, w1)
    /\ run_app world_rejecting "K" (idle (submit hello)) (session w1)
       = (Ok tt, w2)
    /\ ui w2 = (top ++ map render_message [greeting]
                    ++ map render_message (turns (world_rejecting, hello))
                    ++ bottom)%list
    /\ (forall t,
          generate_content world_rejecting
            (translation_prompt "English" "Spanish" "Hello") = GenText t ->
          map render_message (turns (world_rejecting, hello))
          = [asked; ChatMessage "assistant" [t]]
          /\ ui w1 = (top ++ map render_message [greeting]
                          ++ [asked; busy; ChatMessage "assistant" [t]]
                          ++ bottom)%list)
    /\ (forall e,
          generate_content world_rejecting
            (translation_prompt "English" "Spanish" "Hello") = GenRaises e ->
          let text := "An error occurred during translation: " ++ e in
          map render_message (turns (world_rejecting, hello))
          = [asked; ChatMessage "assistant" ["Error: " ++ text]]
          /\ ui w1 = (top ++ map render_message [greeting]
                          ++ [asked; busy; StError text;
                              StInfo "Please try again or check your API key/network connection. Quota limits might also apply."]
                          ++ bottom)%list).
Proof.
  apply (drawn_again_as_stored world_rejecting "K" hello signed_in [greeting]).
  - split; [reflexivity | eexists; reflexivity].
  - reflexivity.
  - discriminate.
Defined.

(** ** What the views leave alone *)

(** X24. Whenever [login_user] or [signup_user] does not hand back the
    provider's decoded body, the "... failed: ..." error has been drawn
    first: the call then returns None or ends with an uncaught
    exception, and it never asks for a rerun or a stop. *)
Theorem auth_failure_is_announced (env : Env) (endpoint what fallback : string)
    (api_key email password : string) (world : World) :
  let result :=
    auth_call env endpoint what fallback api_key email password world in
  (exists r j,
     requests_post env (auth_request endpoint api_key email password)
     = PostReturns r
     /\ raise_for_status r = None /\ body r = Some j
     /\ fst result = Ok j /\ ui (snd result) = ui world)
  \/ (exists e rest,
        ui (snd result)
        = (ui world ++ StError (what ++ " failed: " ++ e) :: rest)%list
        /\ (fst result = Ok JNull \/ exists x, fst result = Abort (Uncaught x))).
Proof.
  destruct world as [s u c]. cbv zeta.
  unfold auth_call, auth_request, post, auth_except, read_local,
    response_json, py_get, bind, record_call, raise, draw, ret.
  split_cases;
    try (left; do 2 eexists; repeat split; eassumption);
    right; do 2 eexists;
    (split; [rewrite <- ?app_assoc; simpl; reflexivity|]);
    first [left; reflexivity | right; eexists; reflexivity].
Qed.

Lemma messages_kept_auth_call (m0 : option (list Message)) (env : Env)
    (endpoint what fallback : string) (api_key email password : string) :
  keeps (fun s _ => messages s = m0)
        (auth_call env endpoint what fallback api_key email password).
Proof.
  apply (keeps_session_only (fun s => messages s = m0)). intros w.
  apply (auth_call_one_post env endpoint what fallback api_key email
                            password w).
Qed.

Lemma messages_kept_set_logged_in (m0 : option (list Message)) (b : bool) :
  keeps (fun s _ => messages s = m0) (set_logged_in b).
Proof. intros [[li ui0 ms] u c] H; exact H. Qed.

Lemma messages_kept_set_user_info (m0 : option (list Message)) (v : json) :
  keeps (fun s _ => messages s = m0) (set_user_info v).
Proof. intros [[li ui0 ms] u c] H; exact H. Qed.

Lemma messages_kept_auth_view (m0 : option (list Message)) (env : Env)
    (api_key : string) (w : Widgets) :
  keeps (fun s _ => messages s = m0) (auth_view env api_key w).
Proof.
  unfold auth_view, login_form, register_form, login_user, signup_user.
  repeat first [apply messages_kept_auth_call
               | apply messages_kept_set_logged_in
               | apply messages_kept_set_user_info | keeps_step].
Qed.

(** X25. In the logged-out state a run of the page never touches the
    transcript: whatever is typed or pressed on the login page and
    whatever the provider answers, [messages] is afterwards what it was
    (absent if it was absent). *)
Theorem login_page_keeps_transcript (env : Env) (api_key : string)
    (w : Widgets) (s : SessionState) :
  logged_in s <> Some true ->
  messages (session (snd (run_app env api_key w s))) = messages s.
Proof.
  intros Hli.
  pose proof (fun W => messages_kept_auth_view (messages s) env api_key w W)
    as Hav.
  destruct s as [[[|]|] [v|] ms]; simpl in *; try congruence;
    unfold run_app, app, init_login_state, bind; simpl;
    match goal with
    | |- context [auth_view env api_key w ?W] =>
        specialize (Hav W eq_refl);
        destruct (auth_view env api_key w W) as [[[]|sg] w1];
        simpl in *; exact Hav
    end.
Qed.

Lemma login_page_keeps_transcript_witness :
  messages (session (snd (run_app world_up "K"
                            (press_login "ada@example.org" "secret1")
                            logged_out)))
  = messages logged_out.
Proof.
  apply (login_page_keeps_transcript world_up "K"
           (press_login "ada@example.org" "secret1") logged_out).
  discriminate.
Defined.

Lemma account_kept_set_messages (a : option bool) (b : option json)
    (l : list Message) :
  keeps (fun s _ => logged_in s = a /\ user_info s = b) (set_messages l).
Proof. intros [[li ui0 ms] u c] H; exact H. Qed.

Lemma account_kept_record_call (a : option bool) (b : option json) (c : Call) :
  keeps (fun s _ => logged_in s = a /\ user_info s = b) (record_call c).
Proof. intros w H; exact H. Qed.

(** X26. In the logged-in state only Logout changes who is logged in: a
    run without Logout pressed leaves [logged_in] and [user_info] as
    they were, whatever is submitted or cleared, whatever the model
    answers and however the run ends. *)
Theorem only_logout_logs_out (env : Env) (api_key : string) (w : Widgets)
    (s : SessionState) (v : json) :
  logged_in s = Some true -> user_info s = Some v ->
  logout_button w = false ->
  logged_in (session (snd (run_app env api_key w s))) = Some true
  /\ user_info (session (snd (run_app env api_key w s))) = Some v.
Proof.
  intros Hli Hui Hlo.
  assert (Htv : keeps (fun s _ => logged_in s = Some true /\ user_info s = Some v)
                      (translator_view env w)).
  { unfold translator_view, init_messages, on_chat_input, clear_chat,
      append_message.
    rewrite Hlo.
    repeat first [apply account_kept_set_messages
                 | apply account_kept_record_call
                 | discriminate | keeps_step]. }
  destruct s as [li ui0 ms]; simpl in *; subst.
  unfold run_app, app, init_login_state, bind; simpl.
  specialize (Htv (mkWorld (mkSession (Some true) (Some v) ms) [] [])
                  (conj eq_refl eq_refl)).
  destruct (translator_view env w _) as [[[]|sg] w1]; simpl in *; exact Htv.
Qed.

Lemma only_logout_logs_out_witness :
  logged_in (session (snd (run_app world_rejecting "K" press_clear signed_in)))
  = Some true
  /\ user_info (session (snd (run_app world_rejecting "K" press_clear signed_in)))
     = Some account.
Proof.
  apply (only_logout_logs_out world_rejecting "K" press_clear signed_in account).
  - reflexivity.
  - reflexivity.
  - reflexivity.
Defined.
